(** * Whiteboard: the drawing canvas of [src/index.ts]

    A shallow embedding of the [Canvas] class (rectangles dragged with the
    mouse over a background picture, with a chain of save listeners run at
    mouse-up), and the properties of its interaction state machine.

    Modelling conventions.
    - A JavaScript [number] is [number] below: an exact integer or one of
      the three special values.  Pointer coordinates, element sizes and the
      generator's counter are integers; doubles are exact on them up to
      2^53, and the model does not go beyond that.
    - [undefined] is [None]: [currentBox], [currentColor] and the value a
      listener receives are options.
    - The 2D context is the record of its pen attributes, [strokeStyle]
      being the value last assigned to it; what the program paints is the
      list [painted] of the calls it made, each stroke with the pen it was
      made with.
    - A save listener is a function of the value it is called on and of the
      host page's state [W] (the DOM it may edit, its own closure
      variables); it returns a boolean or throws.  Listeners do not call
      back into the canvas. *)

From Stdlib Require Import ZArith Lia.
From stdpp Require Import base list strings.

(** ** JavaScript numbers *)

Inductive number : Type :=
| Num (z : Z)
| Infinity
| NegInfinity
| NaN.

Definition number_sub (a b : number) : number :=
  match a, b with
  | NaN, _ | _, NaN => NaN
  | Num x, Num y => Num (x - y)
  | Num _, Infinity => NegInfinity
  | Num _, NegInfinity => Infinity
  | Infinity, Infinity => NaN
  | Infinity, _ => Infinity
  | NegInfinity, NegInfinity => NaN
  | NegInfinity, _ => NegInfinity
  end.

Definition number_add (a b : number) : number :=
  match a, b with
  | NaN, _ | _, NaN => NaN
  | Num x, Num y => Num (x + y)
  | Num _, Infinity => Infinity
  | Num _, NegInfinity => NegInfinity
  | Infinity, NegInfinity => NaN
  | Infinity, _ => Infinity
  | NegInfinity, Infinity => NaN
  | NegInfinity, _ => NegInfinity
  end.

(** [Math.ceil(a / 2)]; on an integer [z] the ceiling of [z / 2] is the
    floor of [(z + 1) / 2]. *)
Definition number_ceil_half (a : number) : number :=
  match a with
  | Num z => Num ((z + 1) / 2)
  | other => other
  end.

Arguments number_sub : simpl never.
Arguments number_add : simpl never.

Declare Scope number_scope.
Delimit Scope number_scope with num.
Bind Scope number_scope with number.
Notation "a - b" := (number_sub a b) : number_scope.
Notation "a + b" := (number_add a b) : number_scope.

(** ** Shapes *)

Record Box : Type := mkBox {
  posX : number;
  posY : number;
  width : number;
  height : number;
  color : option string
}.

Record HTMLImageElement : Type := mkImage {
  img_width : Z;
  img_height : Z;
  src : string
}.

Record ImageItem : Type := mkImageItem { image : HTMLImageElement }.

Inductive Item : Type :=
| ItemBox (box : Box)
| ItemImage (img : ImageItem).

(** [posX] of a [Box] is always a number, never [undefined]. *)
Definition isBox (item : Item) : bool :=
  match item with
  | ItemBox _ => true
  | ItemImage _ => false
  end.

(** ** The colour generator *)

Record Generator : Type := mkGenerator { currentNumber : nat }.

Definition googColors : list string := ["blue"; "red"; "yellow"; "green"].

(** A fresh generator object: [currentNumber = 0], suspended before the loop. *)
Definition getRandomColor : Generator := {| currentNumber := 0 |}.

(** [.next()]: one turn of [while (true) { currentNumber++; yield ... }].
    The value is an array read, [undefined] out of range. *)
Definition generator_next (g : Generator) : option string * Generator :=
  let n := S (currentNumber g) in
  (googColors !! (n mod length googColors), {| currentNumber := n |}).

Arguments generator_next : simpl never.

(** The value of the [k]-th call on a generator ([k] counted from 1);
    [None] also stands for "no call" at [k = 0]. *)
Fixpoint nth_call (k : nat) (g : Generator) : option string :=
  match k with
  | 0 => None
  | 1 => fst (generator_next g)
  | S k' => nth_call k' (snd (generator_next g))
  end.

(** ** The surface *)

Record DOMRect : Type := mkRect { rect_left : Z; rect_top : Z }.

Record HTMLCanvasElement : Type := mkElement {
  elem_width : Z;
  elem_height : Z;
  boundingClientRect : DOMRect
}.

Record CanvasRenderingContext2D : Type := mkCtx {
  strokeStyle : option string;
  lineCap : string;
  lineWidth : Z
}.

Inductive Paint : Type :=
| ClearRect (x y w h : number)
| StrokeRect (x y w h : number) (pen : CanvasRenderingContext2D)
| DrawImage (img : HTMLImageElement) (x y w h : number).

Record MouseEvent : Type := mkMouse { clientX : Z; clientY : Z }.

(** ** Listeners and the console *)

Inductive JSError : Type :=
| TypeError
| Error (message : string).

Inductive Outcome : Type :=
| Return (res : bool)
| Throw (error : JSError).

Inductive LogLine : Type :=
| LogText (text : string)
| LogError (error : JSError).

Definition Listener (W : Type) : Type := option Box -> W -> W * Outcome.

(** ** The canvas object, with the part of the page it acts on *)

Record Canvas (W : Type) : Type := mkCanvas {
  canvas : HTMLCanvasElement;
  ctx : CanvasRenderingContext2D;
  boxes : list Item;
  (* declared [Item | undefined]; only a [Box] or [undefined] is ever stored *)
  currentBox : option Box;
  xstartPosition : number;
  ystartPosition : number;
  canDraw : bool;
  currentColor : option string;
  colorGenerator : Generator;
  saveCallbacks : list (Listener W);
  (* the page *)
  painted : list Paint;
  console : list LogLine;
  host : W
}.

Arguments mkCanvas {W}.
Arguments canvas {W}.
Arguments ctx {W}.
Arguments boxes {W}.
Arguments currentBox {W}.
Arguments xstartPosition {W}.
Arguments ystartPosition {W}.
Arguments canDraw {W}.
Arguments currentColor {W}.
Arguments colorGenerator {W}.
Arguments saveCallbacks {W}.
Arguments painted {W}.
Arguments console {W}.
Arguments host {W}.

Section CanvasClass.
Context {W : Type}.

Local Abbreviation Canvas := (Canvas W).

(** *** Field assignments *)

Definition set_canvas (v : HTMLCanvasElement) (s : Canvas) : Canvas :=
  mkCanvas v (ctx s) (boxes s) (currentBox s) (xstartPosition s)
    (ystartPosition s) (canDraw s) (currentColor s) (colorGenerator s)
    (saveCallbacks s) (painted s) (console s) (host s).

Definition set_ctx (v : CanvasRenderingContext2D) (s : Canvas) : Canvas :=
  mkCanvas (canvas s) v (boxes s) (currentBox s) (xstartPosition s)
    (ystartPosition s) (canDraw s) (currentColor s) (colorGenerator s)
    (saveCallbacks s) (painted s) (console s) (host s).

Definition set_boxes (v : list Item) (s : Canvas) : Canvas :=
  mkCanvas (canvas s) (ctx s) v (currentBox s) (xstartPosition s)
    (ystartPosition s) (canDraw s) (currentColor s) (colorGenerator s)
    (saveCallbacks s) (painted s) (console s) (host s).

Definition set_currentBox (v : option Box) (s : Canvas) : Canvas :=
  mkCanvas (canvas s) (ctx s) (boxes s) v (xstartPosition s)
    (ystartPosition s) (canDraw s) (currentColor s) (colorGenerator s)
    (saveCallbacks s) (painted s) (console s) (host s).

Definition set_xstartPosition (v : number) (s : Canvas) : Canvas :=
  mkCanvas (canvas s) (ctx s) (boxes s) (currentBox s) v
    (ystartPosition s) (canDraw s) (currentColor s) (colorGenerator s)
    (saveCallbacks s) (painted s) (console s) (host s).

Definition set_ystartPosition (v : number) (s : Canvas) : Canvas :=
  mkCanvas (canvas s) (ctx s) (boxes s) (currentBox s) (xstartPosition s)
    v (canDraw s) (currentColor s) (colorGenerator s)
    (saveCallbacks s) (painted s) (console s) (host s).

Definition set_canDraw (v : bool) (s : Canvas) : Canvas :=
  mkCanvas (canvas s) (ctx s) (boxes s) (currentBox s) (xstartPosition s)
    (ystartPosition s) v (currentColor s) (colorGenerator s)
    (saveCallbacks s) (painted s) (console s) (host s).

Definition set_currentColor (v : option string) (s : Canvas) : Canvas :=
  mkCanvas (canvas s) (ctx s) (boxes s) (currentBox s) (xstartPosition s)
    (ystartPosition s) (canDraw s) v (colorGenerator s)
    (saveCallbacks s) (painted s) (console s) (host s).

Definition set_colorGenerator (v : Generator) (s : Canvas) : Canvas :=
  mkCanvas (canvas s) (ctx s) (boxes s) (currentBox s) (xstartPosition s)
    (ystartPosition s) (canDraw s) (currentColor s) v
    (saveCallbacks s) (painted s) (console s) (host s).

Definition set_saveCallbacks (v : list (Listener W)) (s : Canvas) : Canvas :=
  mkCanvas (canvas s) (ctx s) (boxes s) (currentBox s) (xstartPosition s)
    (ystartPosition s) (canDraw s) (currentColor s) (colorGenerator s)
    v (painted s) (console s) (host s).

Definition set_painted (v : list Paint) (s : Canvas) : Canvas :=
  mkCanvas (canvas s) (ctx s) (boxes s) (currentBox s) (xstartPosition s)
    (ystartPosition s) (canDraw s) (currentColor s) (colorGenerator s)
    (saveCallbacks s) v (console s) (host s).

Definition set_console (v : list LogLine) (s : Canvas) : Canvas :=
  mkCanvas (canvas s) (ctx s) (boxes s) (currentBox s) (xstartPosition s)
    (ystartPosition s) (canDraw s) (currentColor s) (colorGenerator s)
    (saveCallbacks s) (painted s) v (host s).

Definition set_host (v : W) (s : Canvas) : Canvas :=
  mkCanvas (canvas s) (ctx s) (boxes s) (currentBox s) (xstartPosition s)
    (ystartPosition s) (canDraw s) (currentColor s) (colorGenerator s)
    (saveCallbacks s) (painted s) (console s) v.

(** *** Calls on the page *)

Definition console_log (line : LogLine) (s : Canvas) : Canvas :=
  set_console (console s ++ [line]) s.

Definition paint (p : Paint) (s : Canvas) : Canvas :=
  set_painted (painted s ++ [p]) s.

Definition clearRect (x y w h : number) (s : Canvas) : Canvas :=
  paint (ClearRect x y w h) s.

Definition strokeRect (x y w h : number) (s : Canvas) : Canvas :=
  paint (StrokeRect x y w h (ctx s)) s.

Definition drawImage (img : HTMLImageElement) (x y w h : number)
    (s : Canvas) : Canvas :=
  paint (DrawImage img x y w h) s.

(** *** Methods of [Canvas] *)

Definition setupSize (w h : Z) (s : Canvas) : Canvas :=
  set_canvas (mkElement w h (boundingClientRect (canvas s))) s.

Definition new_Canvas (element : HTMLCanvasElement)
    (context : CanvasRenderingContext2D) (w h : Z) (page : W) : Canvas :=
  setupSize w h
    (mkCanvas element context [] None (Num 0) (Num 0) false None
       getRandomColor [] [] [] page).

Definition setColor (c : option string) (s : Canvas) : Canvas :=
  let s := set_ctx (mkCtx c (lineCap (ctx s)) (lineWidth (ctx s))) s in
  set_currentColor c s.

Definition setupPen (s : Canvas) : Canvas :=
  let s := set_ctx (mkCtx (strokeStyle (ctx s)) "butt" (lineWidth (ctx s))) s in
  set_ctx (mkCtx (strokeStyle (ctx s)) (lineCap (ctx s)) 3) s.

(** The three [addEventListener] calls are the dispatch of [handle] below. *)
Definition setup (s : Canvas) : Canvas :=
  setupPen (console_log (LogText "Mounted canvas") s).

Definition xCorrection (s : Canvas) : number :=
  Num (rect_left (boundingClientRect (canvas s))).

Definition yCorrection (s : Canvas) : number :=
  Num (rect_top (boundingClientRect (canvas s))).

(** The body of [for (const box of this.boxes)] in [refresh]; the test
    [isBox(box)] is the match on the constructor. *)
Definition refresh_item (s : Canvas) (item : Item) : Canvas :=
  match item with
  | ItemBox box =>
      let previousColor := currentColor s in
      let s := setColor (color box) s in
      let s := strokeRect (posX box) (posY box) (width box) (height box) s in
      setColor previousColor s
  | ItemImage img =>
      drawImage (image img) (Num 0) (Num 0)
        (Num (elem_width (canvas s))) (Num (elem_height (canvas s))) s
  end.

Definition refresh (s : Canvas) : Canvas :=
  let s :=
    clearRect (Num 0) (Num 0)
      (Num (elem_width (canvas s))) (Num (elem_height (canvas s))) s in
  foldl refresh_item s (boxes s).

(** [image.onload] is the event [ImageOnload] of [handle]. *)
Definition setPicture (path : string) (s : Canvas) : Canvas :=
  let image := mkImage 10 10 path in
  set_boxes (boxes s ++ [ItemImage (mkImageItem image)]) s.

(** The loop of [saveCurrentBox]; [false] is one of its two [return]s. *)
Fixpoint runSaveCallbacks (callbacks : list (Listener W)) (s : Canvas)
    : Canvas * bool :=
  match callbacks with
  | [] => (s, true)
  | callback :: rest =>
      match callback (currentBox s) (host s) with
      | (page, Return true) => runSaveCallbacks rest (set_host page s)
      | (page, Return false) => (set_host page s, false)
      | (page, Throw error) =>
          (console_log (LogError error) (set_host page s), false)
      end
  end.

Definition saveCurrentBox (s : Canvas) : Canvas :=
  match runSaveCallbacks (saveCallbacks s) s with
  | (s, false) => s
  | (s, true) =>
      match currentBox s with
      | Some box =>
          let s := set_boxes (boxes s ++ [ItemBox box]) s in
          set_currentBox None s
      | None => s
      end
  end.

Definition addSaveListener (callback : Listener W) (s : Canvas) : Canvas :=
  set_saveCallbacks (saveCallbacks s ++ [callback]) s.

Definition onMouseUp (e : MouseEvent) (s : Canvas) : Canvas :=
  let s := set_canDraw false s in
  let s := set_xstartPosition Infinity s in
  let s := set_ystartPosition Infinity s in
  let s := saveCurrentBox s in
  set_currentColor None s.

Definition onMouseDown (e : MouseEvent) (s : Canvas) : Canvas :=
  let s := set_canDraw true s in
  let s := set_xstartPosition (Num (clientX e) - xCorrection s)%num s in
  set_ystartPosition (Num (clientY e) - yCorrection s)%num s.

Definition drawRectangle (e : MouseEvent) (s : Canvas) : Canvas :=
  if negb (canDraw s) then s
  else
    let s := refresh s in
    let s :=
      match currentColor s with
      | None =>
          let '(value, g) := generator_next (colorGenerator s) in
          setColor value (set_colorGenerator g s)
      | Some _ => s
      end in
    let width := (Num (clientX e) - xstartPosition s - xCorrection s)%num in
    let height := (Num (clientY e) - ystartPosition s - yCorrection s)%num in
    let s := strokeRect (xstartPosition s) (ystartPosition s) width height s in
    set_currentBox
      (Some (mkBox (xstartPosition s) (ystartPosition s) width height
               (currentColor s))) s.

Definition onDraw (e : MouseEvent) (s : Canvas) : Canvas :=
  drawRectangle e s.

(** *** What can happen to a canvas *)

Inductive Event : Type :=
| MouseDown (e : MouseEvent)
| MouseMove (e : MouseEvent)
| MouseUp (e : MouseEvent)
| ImageOnload
| Layout (rect : DOMRect)
| CallSetPicture (path : string)
| CallSetColor (c : string)
| CallAddSaveListener (callback : Listener W)
| CallSetup.

Definition handle (s : Canvas) (ev : Event) : Canvas :=
  match ev with
  | MouseDown e => onMouseDown e s
  | MouseMove e => onDraw e s
  | MouseUp e => onMouseUp e s
  | ImageOnload => refresh s
  | Layout rect =>
      set_canvas
        (mkElement (elem_width (canvas s)) (elem_height (canvas s)) rect) s
  | CallSetPicture path => setPicture path s
  | CallSetColor c => setColor (Some c) s
  | CallAddSaveListener callback => addSaveListener callback s
  | CallSetup => setup s
  end.

Definition run (evs : list Event) (s : Canvas) : Canvas :=
  foldl handle s evs.

(** The calls [f] makes on the 2D context when run from [s]. *)
Definition output (f : Canvas -> Canvas) (s : Canvas) : list Paint :=
  drop (length (painted s)) (painted (f s)).

End CanvasClass.

Arguments Event : clear implicits.

(** ** The page of [Main] *)

Record Overlay : Type := mkOverlay {
  className : string;
  style_position : string;
  style_top : number;
  style_left : number;
  style_width : string;
  style_height : string;
  style_backgroundColor : option string
}.

Definition addOverlay (posX posY : number) (color : option string)
    (container : list Overlay) : list Overlay :=
  container ++
  [mkOverlay "overlay" "absolute" (posY - Num 50)%num (posX - Num 50)%num
     "100px" "100px" color].

(** The listener registered by [Main]; reading [box.posX] of [undefined]
    throws a [TypeError]. *)
Definition mainListener : Listener (list Overlay) :=
  fun box container =>
    match box with
    | None => (container, Throw TypeError)
    | Some box =>
        let width := (posX box + number_ceil_half (width box))%num in
        let height := (posY box + number_ceil_half (height box))%num in
        (addOverlay width height (color box) container, Return true)
    end.

Definition Main (element : HTMLCanvasElement)
    (context : CanvasRenderingContext2D) (innerWidth innerHeight : Z)
    : Canvas (list Overlay) :=
  let width := (innerWidth - 9)%Z in
  let height := (innerHeight - 9)%Z in
  let canvas := new_Canvas element context width height [] in
  let canvas := setup canvas in
  let canvas := setPicture "./static/picture.jpg" canvas in
  addSaveListener mainListener canvas.

(** ** Vocabulary of the statements *)

(** A listener that vetoes its first call and accepts from then on; the
    page state is its closure variable [first]. *)
Definition vetoOnce : Listener bool :=
  fun _ first => (false, Return (negb first)).

(** A page: a canvas element of the default size, 8 pixels off the
    corner of the viewport, with the default pen. *)
Definition page_element : HTMLCanvasElement := mkElement 300 150 (mkRect 8 8).

Definition page_context : CanvasRenderingContext2D :=
  mkCtx (Some "#000000") "butt" 1.

(** A canvas with no listener, on a page with no state of its own. *)
Definition blank : Canvas unit :=
  new_Canvas page_element page_context 1015 759 tt.

(** A canvas whose only listener is [vetoOnce], not yet called. *)
Definition guarded : Canvas bool :=
  addSaveListener vetoOnce (new_Canvas page_element page_context 1015 759 true).

Section Vocabulary.
Context {W : Type}.

(** Every listener of [pre], called in list order on [box], returns [true];
    the result is the page they leave. *)
Fixpoint all_accept (pre : list (Listener W)) (box : option Box) (page : W)
    : option W :=
  match pre with
  | [] => Some page
  | callback :: rest =>
      match callback box page with
      | (page, Return true) => all_accept rest box page
      | _ => None
      end
  end.

(** What [refresh] paints for one item, with the pen of [s]. *)
Definition render_item (s : Canvas W) (item : Item) : Paint :=
  match item with
  | ItemBox box =>
      StrokeRect (posX box) (posY box) (width box) (height box)
        (mkCtx (color box) (lineCap (ctx s)) (lineWidth (ctx s)))
  | ItemImage img =>
      DrawImage (image img) (Num 0) (Num 0)
        (Num (elem_width (canvas s))) (Num (elem_height (canvas s)))
  end.

(** The pen [refresh] leaves behind. *)
Definition pen_after (s : Canvas W) (items : list Item)
    : CanvasRenderingContext2D :=
  if existsb isBox items
  then mkCtx (currentColor s) (lineCap (ctx s)) (lineWidth (ctx s))
  else ctx s.

(** The colour a drag started in [s] is drawn in. *)
Definition drag_color (s : Canvas W) : option string :=
  match currentColor s with
  | Some c => Some c
  | None => fst (generator_next (colorGenerator s))
  end.

(** The generator a drag started in [s] leaves behind once it has moved. *)
Definition drag_generator (s : Canvas W) : Generator :=
  match currentColor s with
  | Some _ => colorGenerator s
  | None => snd (generator_next (colorGenerator s))
  end.

(** The rectangle from a pointer-down at [d] to a pointer move at [l], in
    a canvas whose element sits at the offset of [s]. *)
Definition dragged_box (s : Canvas W) (d l : MouseEvent) : Box :=
  let left := rect_left (boundingClientRect (canvas s)) in
  let top := rect_top (boundingClientRect (canvas s)) in
  mkBox (Num (clientX d - left)) (Num (clientY d - top))
    (Num (clientX l - clientX d)) (Num (clientY l - clientY d))
    (drag_color s).

(** Whenever a current colour is set, the pen has it. *)
Definition pen_coherent (s : Canvas W) : Prop :=
  forall c, currentColor s = Some c -> strokeStyle (ctx s) = Some c.

(** The canvas object without the record of what was painted. *)
Definition object (s : Canvas W) : Canvas W := set_painted [] s.

End Vocabulary.

Arguments drag_color : simpl never.
Arguments drag_generator : simpl never.
Arguments dragged_box : simpl never.

(** ** The class before save listeners (first listing of [index.ts]) *)

Abbreviation CanvasEvent := Event.

Module V1.
Section Class.
Context {W : Type}.

(** [onMouseUp] of the first listing.  Its other methods ([setPicture],
    [setup], [setColor], [onMouseDown], [refresh], [onDraw],
    [drawRectangle]) read word for word as in the second listing, and the
    class has no [saveCallbacks]: the field stays empty here. *)
Definition onMouseUp (e : MouseEvent) (s : Canvas W) : Canvas W :=
  let s := set_canDraw false s in
  let s := set_xstartPosition Infinity s in
  let s := set_ystartPosition Infinity s in
  let s :=
    match currentBox s with
    | Some box =>
        let s := set_boxes (boxes s ++ [ItemBox box]) s in
        set_currentBox None s
    | None => s
    end in
  set_currentColor None s.

Inductive Event : Type :=
| Down (e : MouseEvent)
| Move (e : MouseEvent)
| Up (e : MouseEvent)
| Onload
| Relayout (rect : DOMRect)
| SetPicture (path : string)
| SetColor (c : string)
| Setup.

Definition handle (s : Canvas W) (ev : Event) : Canvas W :=
  match ev with
  | Down e => onMouseDown e s
  | Move e => onDraw e s
  | Up e => onMouseUp e s
  | Onload => refresh s
  | Relayout rect =>
      set_canvas
        (mkElement (elem_width (canvas s)) (elem_height (canvas s)) rect) s
  | SetPicture path => setPicture path s
  | SetColor c => setColor (Some c) s
  | Setup => setup s
  end.

Definition run (evs : list Event) (s : Canvas W) : Canvas W :=
  foldl handle s evs.

(** The same event, sent to the class of the second listing. *)
Definition lift (ev : Event) : CanvasEvent W :=
  match ev with
  | Down e => MouseDown e
  | Move e => MouseMove e
  | Up e => MouseUp e
  | Onload => ImageOnload
  | Relayout rect => Layout rect
  | SetPicture path => CallSetPicture path
  | SetColor c => CallSetColor c
  | Setup => CallSetup
  end.

End Class.
End V1.

(** ** The first sketch of the class (the listing that only strokes) *)

Module V0.

Record Canvas : Type := mkCanvas {
  canvas : HTMLCanvasElement;
  ctx : CanvasRenderingContext2D;
  xstartPosition : number;
  ystartPosition : number;
  canDraw : bool;
  (* the page *)
  painted : list Paint;
  console : list LogLine
}.

Definition set_canvas (v : HTMLCanvasElement) (s : Canvas) : Canvas :=
  mkCanvas v (ctx s) (xstartPosition s) (ystartPosition s) (canDraw s)
    (painted s) (console s).

Definition set_ctx (v : CanvasRenderingContext2D) (s : Canvas) : Canvas :=
  mkCanvas (canvas s) v (xstartPosition s) (ystartPosition s) (canDraw s)
    (painted s) (console s).

Definition set_xstartPosition (v : number) (s : Canvas) : Canvas :=
  mkCanvas (canvas s) (ctx s) v (ystartPosition s) (canDraw s)
    (painted s) (console s).

Definition set_ystartPosition (v : number) (s : Canvas) : Canvas :=
  mkCanvas (canvas s) (ctx s) (xstartPosition s) v (canDraw s)
    (painted s) (console s).

Definition set_canDraw (v : bool) (s : Canvas) : Canvas :=
  mkCanvas (canvas s) (ctx s) (xstartPosition s) (ystartPosition s) v
    (painted s) (console s).

Definition set_painted (v : list Paint) (s : Canvas) : Canvas :=
  mkCanvas (canvas s) (ctx s) (xstartPosition s) (ystartPosition s)
    (canDraw s) v (console s).

Definition set_console (v : list LogLine) (s : Canvas) : Canvas :=
  mkCanvas (canvas s) (ctx s) (xstartPosition s) (ystartPosition s)
    (canDraw s) (painted s) v.

Definition setupSize (w h : Z) (s : Canvas) : Canvas :=
  set_canvas (mkElement w h (boundingClientRect (canvas s))) s.

Definition new_Canvas (element : HTMLCanvasElement)
    (context : CanvasRenderingContext2D) (w h : Z) : Canvas :=
  setupSize w h (mkCanvas element context (Num 0) (Num 0) false [] []).

Definition setupPen (s : Canvas) : Canvas :=
  let s := set_ctx (mkCtx (strokeStyle (ctx s)) "butt" (lineWidth (ctx s))) s in
  let s := set_ctx (mkCtx (Some "red") (lineCap (ctx s)) (lineWidth (ctx s))) s in
  set_ctx (mkCtx (strokeStyle (ctx s)) (lineCap (ctx s)) 5) s.

Definition setup (s : Canvas) : Canvas :=
  setupPen (set_console (console s ++ [LogText "Mounted canvas"]) s).

Definition xCorrection (s : Canvas) : number :=
  Num (rect_left (boundingClientRect (canvas s))).

Definition yCorrection (s : Canvas) : number :=
  Num (rect_top (boundingClientRect (canvas s))).

Definition onMouseUp (e : MouseEvent) (s : Canvas) : Canvas :=
  let s := set_canDraw false s in
  let s := set_xstartPosition Infinity s in
  set_ystartPosition Infinity s.

Definition onMouseDown (e : MouseEvent) (s : Canvas) : Canvas :=
  let s := set_canDraw true s in
  let s := set_xstartPosition (Num (clientX e) - xCorrection s)%num s in
  set_ystartPosition (Num (clientY e) - yCorrection s)%num s.

Definition refresh (s : Canvas) : Canvas :=
  set_painted
    (painted s ++
     [ClearRect (Num 0) (Num 0)
        (Num (elem_width (canvas s))) (Num (elem_height (canvas s)))]) s.

Definition drawRectangle (e : MouseEvent) (s : Canvas) : Canvas :=
  if negb (canDraw s) then s
  else
    let s := refresh s in
    let width := (Num (clientX e) - xstartPosition s - xCorrection s)%num in
    let height := (Num (clientY e) - ystartPosition s - yCorrection s)%num in
    set_painted
      (painted s ++
       [StrokeRect (xstartPosition s) (ystartPosition s) width height (ctx s)])
      s.

Definition onDraw (e : MouseEvent) (s : Canvas) : Canvas :=
  drawRectangle e s.

Definition Main (element : HTMLCanvasElement)
    (context : CanvasRenderingContext2D) (outerWidth outerHeight : Z)
    : Canvas :=
  let width := (outerWidth - 100)%Z in
  let height := (outerHeight - 100)%Z in
  setup (new_Canvas element context width height).

End V0.

(** ** Whole drags *)

Record Drag : Type := mkDrag {
  drag_down : MouseEvent;
  drag_moves : list MouseEvent;
  drag_last : MouseEvent;
  drag_up : MouseEvent
}.

(** A pointer-down, some moves, a last move and a pointer-up. *)
Definition drag_events {W : Type} (g : Drag) : list (Event W) :=
  MouseDown (drag_down g) :: map MouseMove (drag_moves g) ++
  [MouseMove (drag_last g); MouseUp (drag_up g)].

(** A drag from the surface point (10,10) to (50,40) on the sample page,
    with a single move. *)
Definition sample_drag : Drag :=
  mkDrag (mkMouse 18 18) [] (mkMouse 58 48) (mkMouse 58 48).

(** A listener that vetoes every rectangle and leaves the page alone. *)
Definition vetoAlways : Listener unit :=
  fun _ page => (page, Return false).

(** A finite number: neither infinity nor [NaN]. *)
Definition finite (a : number) : Prop := exists z, a = Num z.

(** A rectangle with finite geometry and a colour. *)
Definition proper_box (box : Box) : Prop :=
  finite (posX box) /\ finite (posY box) /\
  finite (width box) /\ finite (height box) /\ is_Some (color box).

Definition proper_item (item : Item) : Prop :=
  match item with
  | ItemBox box => proper_box box
  | ItemImage _ => True
  end.

(** Drawing is enabled only from a finite anchor, and every rectangle
    held, committed or provisional, is proper. *)
Definition proper_state {W : Type} (s : Canvas W) : Prop :=
  (canDraw s = true ->
   finite (xstartPosition s) /\ finite (ystartPosition s)) /\
  Forall proper_item (boxes s) /\
  (forall box, currentBox s = Some box -> proper_box box).

(** The listeners that a list of events registers, in order. *)
Definition registered {W : Type} (evs : list (Event W)) : list (Listener W) :=
  omap (fun ev =>
          match ev with
          | CallAddSaveListener callback => Some callback
          | _ => None
          end) evs.

(** The rectangle of the drag [g] when it is the [i]-th drag (from 0) made
    on [s]: its colour is the one the generator of [s] gives at call
    [i + 1]. *)
Definition nth_drag_box {W : Type} (s : Canvas W) (i : nat) (g : Drag) : Item :=
  let left := rect_left (boundingClientRect (canvas s)) in
  let top := rect_top (boundingClientRect (canvas s)) in
  ItemBox
    (mkBox (Num (clientX (drag_down g) - left))
       (Num (clientY (drag_down g) - top))
       (Num (clientX (drag_last g) - clientX (drag_down g)))
       (Num (clientY (drag_last g) - clientY (drag_down g)))
       (googColors !!
          ((currentNumber (colorGenerator s) + S i) mod length googColors))).

(** What the first sketch paints for a move at [m] from the anchor
    [(ax, ay)]. *)
Definition sketch_move (s : V0.Canvas) (ax ay : Z) (m : MouseEvent)
    : list Paint :=
  let left := rect_left (boundingClientRect (V0.canvas s)) in
  let top := rect_top (boundingClientRect (V0.canvas s)) in
  [ClearRect (Num 0) (Num 0)
     (Num (elem_width (V0.canvas s))) (Num (elem_height (V0.canvas s)));
   StrokeRect (Num ax) (Num ay)
     (Num (clientX m - ax - left)) (Num (clientY m - ay - top)) (V0.ctx s)].

(** * Properties *)

Section Properties.
Context {W : Type}.
Implicit Types (s : Canvas W) (e : MouseEvent) (ev : Event W).

(** Unfolds field assignments and context calls down to [mkCanvas]. *)
Ltac canvas_simpl :=
  cbv beta iota zeta delta
    [set_canvas set_ctx set_boxes set_currentBox set_xstartPosition
     set_ystartPosition set_canDraw set_currentColor set_colorGenerator
     set_saveCallbacks set_painted set_console set_host
     console_log paint clearRect strokeRect drawImage setColor
     xCorrection yCorrection object
     canvas ctx boxes currentBox xstartPosition ystartPosition canDraw
     currentColor colorGenerator saveCallbacks painted console host
     strokeStyle lineCap lineWidth elem_width elem_height boundingClientRect
     fst snd generator_next].

(** ** Rendering *)

Lemma foldl_refresh_item (items : list Item) s :
  foldl refresh_item s items =
  set_painted (painted s ++ map (render_item s) items)
    (set_ctx (pen_after s items) s).
Proof.
  revert s. induction items as [|item items IH]; intros s.
  - cbn. rewrite app_nil_r. destruct s; reflexivity.
  - cbn [foldl]. rewrite IH. unfold pen_after.
    destruct item as [box|img]; cbn; [|destruct (existsb isBox items)];
      cbn; rewrite <- app_assoc; try reflexivity.
    destruct (existsb isBox items); reflexivity.
Qed.

Lemma refresh_eq s :
  refresh s =
  set_painted
    (painted s ++
     ClearRect (Num 0) (Num 0)
       (Num (elem_width (canvas s))) (Num (elem_height (canvas s)))
     :: map (render_item s) (boxes s))
    (set_ctx (pen_after s (boxes s)) s).
Proof.
  unfold refresh. rewrite foldl_refresh_item. cbn.
  rewrite <- app_assoc. reflexivity.
Qed.

Lemma output_refresh s :
  output refresh s =
  ClearRect (Num 0) (Num 0)
    (Num (elem_width (canvas s))) (Num (elem_height (canvas s)))
  :: map (render_item s) (boxes s).
Proof.
  unfold output. rewrite refresh_eq. cbn. apply drop_app_length.
Qed.




(** While a current colour is set, the pen has that colour in every state
    the canvas can reach, and [refresh] gives the pen back as it found it. *)
Lemma refresh_restores_pen s c :
  currentColor s = Some c -> pen_coherent s -> ctx (refresh s) = ctx s.
Proof.
  intros Hc Hpen. rewrite refresh_eq. cbn. unfold pen_after.
  destruct (existsb isBox (boxes s)); [|reflexivity].
  rewrite Hc, <- (Hpen c Hc). now destruct (ctx s).
Qed.

(** ** Pointer moves *)

Lemma drawRectangle_eq e s :
  canDraw s = true ->
  drawRectangle e s =
  let c := drag_color s in
  let pen :=
    match currentColor s with
    | None => mkCtx c (lineCap (ctx s)) (lineWidth (ctx s))
    | Some _ => pen_after s (boxes s)
    end in
  let w := (Num (clientX e) - xstartPosition s - xCorrection s)%num in
  let h := (Num (clientY e) - ystartPosition s - yCorrection s)%num in
  mkCanvas (canvas s) pen (boxes s)
    (Some (mkBox (xstartPosition s) (ystartPosition s) w h c))
    (xstartPosition s) (ystartPosition s) true c
    (match currentColor s with
     | None => snd (generator_next (colorGenerator s))
     | Some _ => colorGenerator s
     end)
    (saveCallbacks s)
    (painted s ++
     output refresh s ++
     [StrokeRect (xstartPosition s) (ystartPosition s) w h pen])
    (console s) (host s).
Proof.
  intros Hdraw. unfold drawRectangle. rewrite Hdraw. cbn [negb].
  rewrite output_refresh, refresh_eq. unfold drag_color, pen_after.
  destruct s as [el pen bs cur xs ys draw [c|] g cbs pts con page];
    cbn in Hdraw; subst draw; canvas_simpl; rewrite <- app_assoc;
    destruct (existsb isBox bs); reflexivity.
Qed.

(** C7.  A pointer move while [canDraw] is false returns at once: the
    canvas state is the very same (committed list, provisional slot,
    current colour, generator and all), and nothing is painted. *)
Theorem onDraw_idle_noop e s :
  canDraw s = false ->
  onDraw e s = s /\
  handle s (MouseMove e) = s /\
  boxes (onDraw e s) = boxes s /\
  currentBox (onDraw e s) = currentBox s /\
  currentColor (onDraw e s) = currentColor s /\
  colorGenerator (onDraw e s) = colorGenerator s /\
  output (onDraw e) s = [].
Proof.
  intros Hidle.
  assert (Hsame : onDraw e s = s).
  { unfold onDraw, drawRectangle. rewrite Hidle. reflexivity. }
  cbn [handle]. unfold output. rewrite Hsame.
  split_and!; try reflexivity.
  apply drop_all.
Qed.

(** ** The save pipeline *)

Lemma set_host_same s : set_host (host s) s = s.
Proof. destruct s; reflexivity. Qed.

Lemma runSaveCallbacks_app (pre rest : list (Listener W)) s page :
  all_accept pre (currentBox s) (host s) = Some page ->
  runSaveCallbacks (pre ++ rest) s = runSaveCallbacks rest (set_host page s).
Proof.
  revert s. induction pre as [|callback pre IH]; intros s Hpre.
  - cbn in Hpre. injection Hpre as <-. now rewrite set_host_same.
  - cbn [all_accept] in Hpre. cbn [app runSaveCallbacks].
    destruct (callback (currentBox s) (host s)) as [page' [[|]|error]];
      try discriminate.
    exact (IH (set_host page' s) Hpre).
Qed.

Lemma runSaveCallbacks_frame (callbacks : list (Listener W)) s :
  exists page lines,
    fst (runSaveCallbacks callbacks s) =
    set_console (console s ++ lines) (set_host page s).
Proof.
  revert s. induction callbacks as [|callback rest IH]; intros s.
  - exists (host s), []. cbn. rewrite app_nil_r. destruct s; reflexivity.
  - cbn [runSaveCallbacks].
    destruct (callback (currentBox s) (host s)) as [page [[|]|error]].
    + destruct (IH (set_host page s)) as (page' & lines & ->).
      exists page', lines. reflexivity.
    + exists page, []. cbn. rewrite app_nil_r. reflexivity.
    + exists page, [LogError error]. reflexivity.
Qed.

Lemma pipeline_cases (callbacks : list (Listener W)) (box : option Box) page :
  (exists page', all_accept callbacks box page = Some page') \/
  (exists pre f post page1 page2,
     callbacks = pre ++ f :: post /\
     all_accept pre box page = Some page1 /\
     (f box page1 = (page2, Return false) \/
      exists error, f box page1 = (page2, Throw error))).
Proof.
  revert page. induction callbacks as [|callback rest IH]; intros page.
  - left. now exists page.
  - destruct (callback box page) as [page' [[|]|error]] eqn:Hcall.
    + destruct (IH page') as [[page2 Hall]|(pre & f & post & p1 & p2 & -> & Hall & Hf)].
      * left. exists page2. cbn. now rewrite Hcall.
      * right. exists (callback :: pre), f, post, p1, p2.
        split_and!; [reflexivity | cbn; now rewrite Hcall | exact Hf].
    + right. exists [], callback, rest, page, page'. split_and!; auto.
    + right. exists [], callback, rest, page, page'. split_and!; eauto.
Qed.

Lemma saveCurrentBox_accept s page :
  all_accept (saveCallbacks s) (currentBox s) (host s) = Some page ->
  saveCurrentBox s =
  match currentBox s with
  | Some box =>
      set_currentBox None (set_boxes (boxes s ++ [ItemBox box]) (set_host page s))
  | None => set_host page s
  end.
Proof.
  intros Hall. unfold saveCurrentBox.
  rewrite <- (app_nil_r (saveCallbacks s)).
  rewrite (runSaveCallbacks_app _ [] s page Hall). cbn.
  destruct (currentBox s); reflexivity.
Qed.

Lemma saveCurrentBox_veto (pre post : list (Listener W)) f s page1 page2 :
  saveCallbacks s = pre ++ f :: post ->
  all_accept pre (currentBox s) (host s) = Some page1 ->
  f (currentBox s) page1 = (page2, Return false) ->
  saveCurrentBox s = set_host page2 s.
Proof.
  intros Hlist Hpre Hf. unfold saveCurrentBox.
  rewrite Hlist, (runSaveCallbacks_app pre (f :: post) s page1 Hpre).
  cbn. rewrite Hf. reflexivity.
Qed.

Lemma saveCurrentBox_throw (pre post : list (Listener W)) f s page1 page2 error :
  saveCallbacks s = pre ++ f :: post ->
  all_accept pre (currentBox s) (host s) = Some page1 ->
  f (currentBox s) page1 = (page2, Throw error) ->
  saveCurrentBox s = console_log (LogError error) (set_host page2 s).
Proof.
  intros Hlist Hpre Hf. unfold saveCurrentBox.
  rewrite Hlist, (runSaveCallbacks_app pre (f :: post) s page1 Hpre).
  cbn. rewrite Hf. reflexivity.
Qed.

(** C2.  [addSaveListener] registers at the end of the list.  On a
    provisional rectangle [box], when the listeners of [pre] (in list order,
    each on the page the one before left) all return [true] and the next one,
    [f], returns [false] or throws, [saveCurrentBox] returns the state in
    which only the page is changed, to what [f] left: nothing of [post] has
    run and nothing is appended; a throw differs from a veto by the logged
    error alone, and the call returns normally.  When all return [true] the
    rectangle is appended.  Every listener list is in one of these cases. *)
Theorem save_pipeline_short_circuit s (box : Box) :
  currentBox s = Some box ->
  (forall callback,
     saveCallbacks (addSaveListener callback s) = saveCallbacks s ++ [callback]) /\
  (forall pre f post page1 page2,
     saveCallbacks s = pre ++ f :: post ->
     all_accept pre (Some box) (host s) = Some page1 ->
     f (Some box) page1 = (page2, Return false) ->
     saveCurrentBox s = set_host page2 s) /\
  (forall pre f post page1 page2 error,
     saveCallbacks s = pre ++ f :: post ->
     all_accept pre (Some box) (host s) = Some page1 ->
     f (Some box) page1 = (page2, Throw error) ->
     saveCurrentBox s = console_log (LogError error) (set_host page2 s)) /\
  (forall page,
     all_accept (saveCallbacks s) (Some box) (host s) = Some page ->
     saveCurrentBox s =
     set_currentBox None
       (set_boxes (boxes s ++ [ItemBox box]) (set_host page s))) /\
  ((exists page, all_accept (saveCallbacks s) (Some box) (host s) = Some page) \/
   (exists pre f post page1 page2,
      saveCallbacks s = pre ++ f :: post /\
      all_accept pre (Some box) (host s) = Some page1 /\
      (f (Some box) page1 = (page2, Return false) \/
       exists error, f (Some box) page1 = (page2, Throw error)))).
Proof.
  intros Hbox. split_and!.
  - reflexivity.
  - intros pre f post page1 page2 Hlist Hpre Hf. rewrite <- Hbox in Hpre, Hf.
    exact (saveCurrentBox_veto pre post f s page1 page2 Hlist Hpre Hf).
  - intros pre f post page1 page2 error Hlist Hpre Hf.
    rewrite <- Hbox in Hpre, Hf.
    exact (saveCurrentBox_throw pre post f s page1 page2 error Hlist Hpre Hf).
  - intros page Hall. rewrite <- Hbox in Hall.
    rewrite (saveCurrentBox_accept s page Hall), Hbox. reflexivity.
  - apply pipeline_cases.
Qed.

Lemma onMouseUp_rejected e s (pre post : list (Listener W)) f page1 page2 :
  saveCallbacks s = pre ++ f :: post ->
  all_accept pre (currentBox s) (host s) = Some page1 ->
  f (currentBox s) page1 = (page2, Return false) \/
  (exists error, f (currentBox s) page1 = (page2, Throw error)) ->
  boxes (onMouseUp e s) = boxes s /\
  currentBox (onMouseUp e s) = currentBox s /\
  host (onMouseUp e s) = page2.
Proof.
  intros Hlist Hpre Hf. unfold onMouseUp.
  match goal with |- context [saveCurrentBox ?s'] => set (s0 := s') end.
  destruct Hf as [Hf|[error Hf]].
  - rewrite (saveCurrentBox_veto pre post f s0 page1 page2 Hlist Hpre Hf).
    split_and!; reflexivity.
  - rewrite (saveCurrentBox_throw pre post f s0 page1 page2 error Hlist Hpre Hf).
    split_and!; reflexivity.
Qed.

(** ** The committed list *)

Lemma boxes_saveCurrentBox s :
  boxes (saveCurrentBox s) = boxes s \/
  exists box, currentBox s = Some box /\
    boxes (saveCurrentBox s) = boxes s ++ [ItemBox box].
Proof.
  unfold saveCurrentBox.
  destruct (runSaveCallbacks_frame (saveCallbacks s) s) as (page & lines & Hrun).
  destruct (runSaveCallbacks (saveCallbacks s) s) as [s' [|]];
    cbn in Hrun; subst s'; [|now left].
  cbn. destruct (currentBox s) as [box|]; [right|left]; eauto.
Qed.

Lemma boxes_drawRectangle e s : boxes (drawRectangle e s) = boxes s.
Proof.
  destruct (canDraw s) eqn:Hdraw.
  - now rewrite drawRectangle_eq.
  - unfold drawRectangle. now rewrite Hdraw.
Qed.

Lemma boxes_handle s ev : boxes s `prefix_of` boxes (handle s ev).
Proof.
  destruct ev; cbn [handle].
  - reflexivity.
  - unfold onDraw. now rewrite boxes_drawRectangle.
  - unfold onMouseUp. cbn.
    match goal with |- _ `prefix_of` boxes (saveCurrentBox ?s') =>
      destruct (boxes_saveCurrentBox s') as [->|(box & _ & ->)] end.
    + reflexivity.
    + now apply prefix_app_r.
  - rewrite refresh_eq. reflexivity.
  - reflexivity.
  - unfold setPicture. cbn. now apply prefix_app_r.
  - reflexivity.
  - reflexivity.
  - reflexivity.
Qed.

Lemma boxes_run (evs : list (Event W)) s : boxes s `prefix_of` boxes (run evs s).
Proof.
  revert s. induction evs as [|ev evs IH]; intros s; [reflexivity|].
  etrans; [apply (boxes_handle s ev)|apply IH].
Qed.

(** C10.  Every event and every public call leaves the committed list as
    it was or appends to it, so the list at any moment of a run is a prefix
    of the list at any later moment: no entry is removed, moved or changed. *)
Theorem committed_list_append_only (evs1 evs2 : list (Event W)) s ev :
  boxes s `prefix_of` boxes (handle s ev) /\
  boxes (run evs1 s) `prefix_of` boxes (run (evs1 ++ evs2) s).
Proof.
  split; [apply boxes_handle|].
  unfold run. rewrite foldl_app. apply boxes_run.
Qed.

(** ** Drags *)

Lemma generator_next_some g : exists c, fst (generator_next g) = Some c.
Proof.
  unfold generator_next. cbn [fst]. apply lookup_lt_is_Some.
  apply Nat.mod_upper_bound. discriminate.
Qed.

Lemma drag_color_some s : exists c, drag_color s = Some c.
Proof.
  unfold drag_color. destruct (currentColor s) as [c|]; [now exists c|].
  apply generator_next_some.
Qed.

Lemma drawRectangle_drag e s :
  canDraw s = true ->
  currentColor (drawRectangle e s) = drag_color s /\
  colorGenerator (drawRectangle e s) = drag_generator s /\
  drag_color (drawRectangle e s) = drag_color s /\
  drag_generator (drawRectangle e s) = drag_generator s.
Proof.
  intros Hdraw. rewrite drawRectangle_eq by exact Hdraw.
  cbv zeta. destruct (drag_color_some s) as [c Hc]. split_and!.
  - reflexivity.
  - unfold drag_generator. cbn. now destruct (currentColor s).
  - unfold drag_color at 1. cbn. now rewrite Hc.
  - unfold drag_generator. cbn. rewrite Hc. now destruct (currentColor s).
Qed.

Lemma run_moves (ms : list MouseEvent) s :
  canDraw s = true ->
  let s' := run (map MouseMove ms) s in
  canvas s' = canvas s /\ boxes s' = boxes s /\
  xstartPosition s' = xstartPosition s /\
  ystartPosition s' = ystartPosition s /\
  canDraw s' = true /\ saveCallbacks s' = saveCallbacks s /\
  console s' = console s /\ host s' = host s /\
  drag_color s' = drag_color s /\ drag_generator s' = drag_generator s /\
  (ms = [] \/
   currentColor s' = drag_color s /\ colorGenerator s' = drag_generator s).
Proof.
  revert s. induction ms as [|e ms IH]; intros s Hdraw.
  - cbn. split_and!; auto.
  - destruct (drawRectangle_drag e s Hdraw) as (Hc & Hg & Hdc & Hdg).
    assert (Hdraw' : canDraw (drawRectangle e s) = true)
      by now rewrite drawRectangle_eq.
    specialize (IH _ Hdraw'). unfold run in *.
    cbn [map foldl handle]. unfold onDraw. cbv zeta in *.
    destruct IH as (H1 & H2 & H3 & H4 & H5 & H6 & H7 & H8 & H9 & H10 & H11).
    rewrite H1, H2, H3, H4, H5, H6, H7, H8, H9, H10, Hdc, Hdg.
    split_and!; try reflexivity;
      try (rewrite drawRectangle_eq by exact Hdraw; reflexivity).
    right. destruct H11 as [->|[Hc' Hg']].
    + cbn. now split.
    + rewrite Hc', Hg'. now split.
Qed.

Lemma onMouseUp_frame e s :
  exists page lines bs cur,
    onMouseUp e s =
    mkCanvas (canvas s) (ctx s) bs cur Infinity Infinity false None
      (colorGenerator s) (saveCallbacks s) (painted s)
      (console s ++ lines) page.
Proof.
  unfold onMouseUp, saveCurrentBox.
  match goal with |- context [runSaveCallbacks ?cbs ?s'] =>
    destruct (runSaveCallbacks_frame cbs s') as (page & lines & Hrun);
    destruct (runSaveCallbacks cbs s') as [s'' [|]]
  end; cbn in Hrun; subst s''; cbn.
  - destruct (currentBox s); eauto.
  - eauto.
Qed.

Lemma onMouseUp_no_listeners e s :
  saveCallbacks s = [] ->
  onMouseUp e s =
  mkCanvas (canvas s) (ctx s)
    (boxes s ++ match currentBox s with Some box => [ItemBox box] | None => [] end)
    None Infinity Infinity false None
    (colorGenerator s) [] (painted s) (console s) (host s).
Proof.
  intros Hnone.
  destruct s as [el pen bs cur xs ys draw c g cbs pts con page].
  cbn in Hnone. subst cbs. unfold onMouseUp, saveCurrentBox. cbn.
  destruct cur; cbn; rewrite ?app_nil_r; reflexivity.
Qed.

Lemma drag_eq s d (ms : list MouseEvent) l u :
  saveCallbacks s = [] ->
  let s' := run (MouseDown d :: map MouseMove ms ++ [MouseMove l; MouseUp u]) s in
  boxes s' = boxes s ++ [ItemBox (dragged_box s d l)] /\
  currentBox s' = None /\ currentColor s' = None /\
  colorGenerator s' = drag_generator s /\
  saveCallbacks s' = [] /\ canvas s' = canvas s.
Proof.
  intros Hnone. unfold run. cbv zeta. cbn [foldl handle].
  rewrite foldl_app. cbn [foldl handle]. unfold onDraw.
  assert (Hdown : canDraw (onMouseDown d s) = true) by reflexivity.
  pose proof (run_moves ms _ Hdown) as Hmoves.
  unfold run in Hmoves. cbv zeta in Hmoves.
  destruct Hmoves as (H1 & H2 & H3 & H4 & H5 & H6 & H7 & H8 & H9 & H10 & _).
  set (s2 := foldl handle (onMouseDown d s) (map MouseMove ms)) in *.
  rewrite onMouseUp_no_listeners
    by (rewrite drawRectangle_eq by exact H5; cbn; now rewrite H6).
  destruct (drawRectangle_drag l s2 H5) as (_ & Hg & _ & _).
  rewrite Hg. rewrite drawRectangle_eq by exact H5. cbn.
  rewrite H1, H2, H3, H4, H9, H10.
  split_and!; try reflexivity.
  unfold dragged_box, xCorrection, yCorrection. cbn. rewrite ?H1. cbn.
  change (drag_color (onMouseDown d s)) with (drag_color s).
  unfold number_sub. do 3 f_equal. f_equal; f_equal; cbn; lia.
Qed.


(** C3.  With no listener registered, a pointer-down at [d], any moves
    [ms], a last move at [l] and a pointer-up append exactly one rectangle,
    anchored at the surface-local position of [d], of width and height
    [(clientX l - clientX d, clientY l - clientY d)], whatever their signs.
    A pointer-down followed at once by a pointer-up, with no move, appends
    only what the provisional slot already held: nothing when it is empty. *)
Theorem drag_appends_one_rectangle s d (ms : list MouseEvent) l u :
  saveCallbacks s = [] ->
  boxes (run (MouseDown d :: map MouseMove ms ++ [MouseMove l; MouseUp u]) s) =
    boxes s ++ [ItemBox (dragged_box s d l)] /\
  width (dragged_box s d l) = Num (clientX l - clientX d) /\
  height (dragged_box s d l) = Num (clientY l - clientY d) /\
  boxes (run [MouseDown d; MouseUp u] s) =
    boxes s ++
    match currentBox s with Some box => [ItemBox box] | None => [] end.
Proof.
  intros Hnone. split_and!; try reflexivity.
  - apply (drag_eq s d ms l u Hnone).
  - unfold run. cbn [foldl handle].
    now rewrite onMouseUp_no_listeners by (cbn; exact Hnone).
Qed.

(** C5.  On a fresh canvas with no listener, whatever the offset of its
    element, a drag from the surface point (10,10) to (50,40) leaves the
    committed list [[{10, 10, 40, 30, red}]]; a second drag that starts at
    (0,0) and has at least one move, all its moves staying at (0,0),
    appends [{0, 0, 0, 0, yellow}]; a pointer-down at (0,0) followed by a
    pointer-up with no move at all appends nothing. *)
Theorem two_drags_scenario (element : HTMLCanvasElement)
    (context : CanvasRenderingContext2D) (w h : Z) (page : W)
    (ms : list MouseEvent) (n : nat) (u1 u2 : MouseEvent) :
  let point x y :=
    mkMouse (x + rect_left (boundingClientRect element))
      (y + rect_top (boundingClientRect element)) in
  let s0 := new_Canvas element context w h page in
  let s1 :=
    run (MouseDown (point 10%Z 10%Z) :: map MouseMove ms ++
         [MouseMove (point 50%Z 40%Z); MouseUp u1]) s0 in
  let s2 :=
    run (MouseDown (point 0%Z 0%Z) :: map MouseMove (replicate n (point 0%Z 0%Z)) ++
         [MouseMove (point 0%Z 0%Z); MouseUp u2]) s1 in
  googColors = ["blue"; "red"; "yellow"; "green"] /\
  saveCallbacks s0 = [] /\
  boxes s0 = [] /\
  boxes s1 = [ItemBox (mkBox (Num 10) (Num 10) (Num 40) (Num 30) (Some "red"))] /\
  boxes s2 =
    [ItemBox (mkBox (Num 10) (Num 10) (Num 40) (Num 30) (Some "red"));
     ItemBox (mkBox (Num 0) (Num 0) (Num 0) (Num 0) (Some "yellow"))] /\
  boxes (run [MouseDown (point 0%Z 0%Z); MouseUp u2] s1) = boxes s1.
Proof.
  intros point s0 s1 s2.
  assert (Hnone : saveCallbacks s0 = []) by reflexivity.
  destruct (drag_eq s0 (point 10%Z 10%Z) ms (point 50%Z 40%Z) u1 Hnone)
    as (Hboxes1 & Hslot1 & Hcolor1 & Hgen1 & Hnone1 & Hcanvas1).
  fold s1 in Hboxes1, Hslot1, Hcolor1, Hgen1, Hnone1, Hcanvas1.
  assert (Hclick : boxes (run [MouseDown (point 0%Z 0%Z); MouseUp u2] s1) =
                   boxes s1).
  { unfold run. cbn [foldl handle].
    rewrite onMouseUp_no_listeners by exact Hnone1.
    cbn [boxes]. change (currentBox (onMouseDown (point 0%Z 0%Z) s1))
      with (currentBox s1).
    rewrite Hslot1. apply app_nil_r. }
  destruct (drag_eq s1 (point 0%Z 0%Z) (replicate n (point 0%Z 0%Z)) (point 0%Z 0%Z) u2 Hnone1)
    as (Hboxes2 & _).
  fold s2 in Hboxes2.
  assert (Hfirst : dragged_box s0 (point 10%Z 10%Z) (point 50%Z 40%Z) =
                   mkBox (Num 10) (Num 10) (Num 40) (Num 30) (Some "red")).
  { unfold dragged_box. cbn. f_equal; f_equal; lia. }
  assert (Hsecond : dragged_box s1 (point 0%Z 0%Z) (point 0%Z 0%Z) =
                    mkBox (Num 0) (Num 0) (Num 0) (Num 0) (Some "yellow")).
  { unfold dragged_box, drag_color. rewrite Hcanvas1, Hcolor1, Hgen1. cbn.
    f_equal; f_equal; lia. }
  rewrite Hclick, Hboxes2, Hsecond, Hboxes1, Hfirst.
  split_and!; reflexivity.
Qed.


Lemma pen_coherent_new (element : HTMLCanvasElement)
    (context : CanvasRenderingContext2D) (w h : Z) (page : W) :
  pen_coherent (new_Canvas element context w h page).
Proof. intros c Hc. discriminate. Qed.

Lemma pen_coherent_handle s ev : pen_coherent s -> pen_coherent (handle s ev).
Proof.
  intros Hpen c. destruct ev; cbn [handle]; try exact (Hpen c).
  - unfold onDraw. destruct (canDraw s) eqn:Hdraw.
    + rewrite drawRectangle_eq by exact Hdraw. cbn. unfold pen_after, drag_color.
      destruct (currentColor s) as [c'|] eqn:Hc; [|auto].
      destruct (existsb isBox (boxes s)); [auto|].
      intros [= <-]. now apply Hpen.
    + unfold drawRectangle. rewrite Hdraw. apply Hpen.
  - destruct (onMouseUp_frame e s) as (page & lines & bs & cur & ->).
    discriminate.
  - rewrite refresh_eq. cbn. unfold pen_after.
    destruct (existsb isBox (boxes s)); [auto|apply Hpen].
  - cbn. auto.
Qed.

(** ** The colour generator *)

Lemma nth_call_S k g :
  nth_call (S k) g = googColors !! ((currentNumber g + S k) mod length googColors).
Proof.
  revert g. induction k as [|k IH]; intros g.
  - cbn [nth_call]. unfold generator_next. cbn [fst].
    now rewrite Nat.add_1_r.
  - change (nth_call (S (S k)) g) with (nth_call (S k) (snd (generator_next g))).
    rewrite IH. unfold generator_next. cbn [snd currentNumber].
    f_equal. f_equal. lia.
Qed.

Lemma generator_handle s ev :
  colorGenerator (handle s ev) = colorGenerator s \/
  colorGenerator (handle s ev) = snd (generator_next (colorGenerator s)).
Proof.
  destruct ev; cbn [handle]; try (left; reflexivity).
  - unfold onDraw. destruct (canDraw s) eqn:Hdraw.
    + destruct (drawRectangle_drag e s Hdraw) as (_ & -> & _).
      unfold drag_generator. destruct (currentColor s); auto.
    + left. unfold drawRectangle. now rewrite Hdraw.
  - left. destruct (onMouseUp_frame e s) as (page & lines & bs & cur & ->).
    reflexivity.
  - left. now rewrite refresh_eq.
Qed.

Lemma generator_run (evs : list (Event W)) s :
  currentNumber (colorGenerator s) <= currentNumber (colorGenerator (run evs s)).
Proof.
  revert s. induction evs as [|ev evs IH]; intros s; [reflexivity|].
  unfold run. cbn [foldl]. etrans; [|apply IH].
  destruct (generator_handle s ev) as [->| ->]; unfold generator_next; cbn; lia.
Qed.

(** C4.  The first call on a fresh generator returns [googColors[1]],
    not [googColors[0]]; the [k]-th call, [k >= 1], returns
    [googColors[k mod 4]] and there always is one; each call advances the
    counter by one; and no event or call on the canvas ever sets the
    generator back: it is left alone or advanced by one call. *)
Theorem kth_color_of_generator (k : nat) (g : Generator) s ev
    (evs : list (Event W)) :
  1 <= k ->
  nth_call 1 getRandomColor = googColors !! 1 /\
  nth_call 1 getRandomColor = Some "red" /\
  nth_call 1 getRandomColor <> googColors !! 0 /\
  nth_call k getRandomColor = googColors !! (k mod length googColors) /\
  is_Some (nth_call k getRandomColor) /\
  currentNumber (snd (generator_next g)) = S (currentNumber g) /\
  (colorGenerator (handle s ev) = colorGenerator s \/
   colorGenerator (handle s ev) = snd (generator_next (colorGenerator s))) /\
  currentNumber (colorGenerator s) <= currentNumber (colorGenerator (run evs s)).
Proof.
  intros Hk.
  assert (Hkth : nth_call k getRandomColor =
                 googColors !! (k mod length googColors)).
  { destruct k as [|k]; [lia|]. now rewrite nth_call_S. }
  split_and!; try reflexivity; try discriminate.
  - exact Hkth.
  - rewrite Hkth. apply lookup_lt_is_Some. apply Nat.mod_upper_bound.
    discriminate.
  - apply generator_handle.
  - apply generator_run.
Qed.

End Properties.

(** * Runs on the sample pages *)

(** C1.  A rejected rectangle is not appended, but [saveCurrentBox] returns
    before it empties the provisional slot.  On [guarded], whose listener
    vetoes once: after a drag from (10,10) to (50,40) the committed list is
    empty and the slot still holds the rectangle; a click elsewhere, with no
    move, then commits that rectangle. *)
Theorem rejected_box_committed_by_later_click :
  let box := mkBox (Num 10) (Num 10) (Num 40) (Num 30) (Some "red") in
  let s1 :=
    run [MouseDown (mkMouse 18 18); MouseMove (mkMouse 58 48);
         MouseUp (mkMouse 58 48)] guarded in
  let s2 := run [MouseDown (mkMouse 200 200); MouseUp (mkMouse 200 200)] s1 in
  boxes s1 = [] /\ currentBox s1 = Some box /\ boxes s2 = [ItemBox box].
Proof. vm_compute. split_and!; reflexivity. Qed.

(** C6.  On the page of [Main], a pointer-up with no provisional rectangle
    leaves the committed list as it was, but the listener is called on
    [undefined]: it throws, and the error is written to the console. *)
Theorem click_without_drag_runs_listener :
  let s0 := Main page_element page_context 1024 768 in
  let s1 := handle s0 (MouseUp (mkMouse 100 100)) in
  currentBox s0 = None /\
  boxes s1 = boxes s0 /\
  console s0 = [LogText "Mounted canvas"] /\
  console s1 = [LogText "Mounted canvas"; LogError TypeError].
Proof. vm_compute. split_and!; reflexivity. Qed.

(** With no listener, a pointer-down followed at once by a pointer-up
    appends nothing to the committed list. *)
Lemma click_without_move_appends_nothing :
  let s' := run [MouseDown (mkMouse 18 18); MouseUp (mkMouse 18 18)] blank in
  saveCallbacks blank = [] /\
  boxes s' = boxes blank /\
  ~ (exists item, boxes s' = boxes blank ++ [item]).
Proof.
  vm_compute. split_and!; try reflexivity. intros [item Hitem]. discriminate.
Qed.

(** After a first drag from (10,10) to (50,40), a pointer-down at (0,0)
    followed by a pointer-up with no move leaves the committed list with
    its single red rectangle: no second rectangle is appended. *)
Lemma second_drag_without_move_appends_nothing :
  let red := ItemBox (mkBox (Num 10) (Num 10) (Num 40) (Num 30) (Some "red")) in
  let yellow := ItemBox (mkBox (Num 0) (Num 0) (Num 0) (Num 0) (Some "yellow")) in
  let s1 := run (drag_events sample_drag) blank in
  let s2 := run [MouseDown (mkMouse 8 8); MouseUp (mkMouse 8 8)] s1 in
  boxes s1 = [red] /\ boxes s2 = [red] /\ boxes s2 <> [red; yellow].
Proof. vm_compute. split_and!; [reflexivity|reflexivity|discriminate]. Qed.




Lemma save_pipeline_short_circuit_witness :
  let s := run [MouseDown (mkMouse 18 18); MouseMove (mkMouse 58 48)] guarded in
  let box := mkBox (Num 10) (Num 10) (Num 40) (Num 30) (Some "red") in
  currentBox s = Some box /\ saveCurrentBox s = set_host false s.
Proof.
  intros s box. split; [reflexivity|].
  exact (proj1 (proj2 (save_pipeline_short_circuit s box eq_refl))
           [] vetoOnce [] true false eq_refl eq_refl eq_refl).
Defined.

Lemma drag_appends_one_rectangle_witness :
  let d := mkMouse 18 18 in
  let l := mkMouse 58 48 in
  saveCallbacks blank = [] /\
  boxes (run [MouseDown d; MouseMove l; MouseUp l] blank) =
    boxes blank ++ [ItemBox (dragged_box blank d l)].
Proof.
  intros d l. split; [reflexivity|].
  exact (proj1 (drag_appends_one_rectangle blank d [] l l eq_refl)).
Defined.

Lemma kth_color_of_generator_witness :
  1 <= 6 /\ nth_call 6 getRandomColor = googColors !! (6 mod length googColors).
Proof.
  split; [lia|].
  apply (kth_color_of_generator 6 getRandomColor blank ImageOnload []). lia.
Defined.

Lemma onDraw_idle_noop_witness :
  canDraw blank = false /\ onDraw (mkMouse 58 48) blank = blank.
Proof.
  split; [reflexivity|].
  exact (proj1 (onDraw_idle_noop (mkMouse 58 48) blank eq_refl)).
Defined.


(** * Further properties of the class *)

Section Frames.
Context {W : Type}.
Implicit Types (s : Canvas W) (e : MouseEvent) (ev : Event W).

Lemma saveCurrentBox_cases s :
  boxes (saveCurrentBox s) = boxes s /\
  currentBox (saveCurrentBox s) = currentBox s \/
  exists box, currentBox s = Some box /\
    boxes (saveCurrentBox s) = boxes s ++ [ItemBox box] /\
    currentBox (saveCurrentBox s) = None.
Proof.
  unfold saveCurrentBox.
  destruct (runSaveCallbacks_frame (saveCallbacks s) s) as (page & lines & Hrun).
  destruct (runSaveCallbacks (saveCallbacks s) s) as [s' [|]];
    cbn in Hrun; subst s'; [|now left].
  destruct s as [el pen bs [box|] xs ys draw c g cbs pts con pg]; cbn.
  - right. exists box. split_and!; reflexivity.
  - left. split; reflexivity.
Qed.

Lemma moves_while_idle (ms : list MouseEvent) s :
  canDraw s = false -> run (map MouseMove ms) s = s.
Proof.
  intros Hidle. induction ms as [|m ms IH]; [reflexivity|].
  unfold run in *. cbn [map foldl handle]. unfold onDraw, drawRectangle.
  rewrite Hidle. exact IH.
Qed.

(** X1.  Pointer-up puts the canvas to rest whatever the listeners answer:
    drawing is disabled, both anchors are [Infinity], no colour is current;
    it paints nothing and leaves the pen, the generator and the listener
    list alone; and the moves that follow it, up to the next pointer-down,
    change nothing at all. *)
Theorem pointer_up_rests e (ms : list MouseEvent) s :
  canDraw (onMouseUp e s) = false /\
  xstartPosition (onMouseUp e s) = Infinity /\
  ystartPosition (onMouseUp e s) = Infinity /\
  currentColor (onMouseUp e s) = None /\
  output (onMouseUp e) s = [] /\
  ctx (onMouseUp e s) = ctx s /\
  colorGenerator (onMouseUp e s) = colorGenerator s /\
  saveCallbacks (onMouseUp e s) = saveCallbacks s /\
  run (MouseUp e :: map MouseMove ms) s = onMouseUp e s.
Proof.
  assert (Hidle : canDraw (onMouseUp e s) = false).
  { destruct (onMouseUp_frame e s) as (page & lines & bs & cur & ->).
    reflexivity. }
  split_and!; try exact Hidle;
    try (destruct (onMouseUp_frame e s) as (page & lines & bs & cur & ->);
         reflexivity).
  - unfold output.
    destruct (onMouseUp_frame e s) as (page & lines & bs & cur & ->).
    cbn. apply drop_all.
  - change (run (MouseUp e :: map MouseMove ms) s)
      with (run (map MouseMove ms) (onMouseUp e s)).
    now apply moves_while_idle.
Qed.

Lemma saveCallbacks_handle s ev :
  saveCallbacks (handle s ev) = saveCallbacks s ++ registered [ev].
Proof.
  destruct ev; cbn [handle]; cbn [registered omap];
    rewrite ?app_nil_r; try reflexivity.
  - unfold onDraw. destruct (canDraw s) eqn:Hdraw.
    + now rewrite drawRectangle_eq.
    + unfold drawRectangle. now rewrite Hdraw.
  - destruct (onMouseUp_frame e s) as (page & lines & bs & cur & ->).
    reflexivity.
  - now rewrite refresh_eq.
Qed.

(** X2.  The listener list after any run is the list before it followed by
    the listeners the run registered, in the order of registration: no
    event, method or listener call removes or reorders a listener. *)
Theorem listeners_only_registered (evs : list (Event W)) s :
  saveCallbacks (run evs s) = saveCallbacks s ++ registered evs.
Proof.
  revert s. induction evs as [|ev evs IH]; intros s.
  - cbn. now rewrite app_nil_r.
  - change (run (ev :: evs) s) with (run evs (handle s ev)).
    rewrite IH, saveCallbacks_handle, <- app_assoc. f_equal.
    unfold registered. change (ev :: evs) with ([ev] ++ evs).
    now rewrite omap_app.
Qed.

End Frames.

Section Invariants.
Context {W : Type}.
Implicit Types (s : Canvas W) (e : MouseEvent) (ev : Event W).

Lemma proper_new (element : HTMLCanvasElement)
    (context : CanvasRenderingContext2D) (w h : Z) (page : W) :
  proper_state (new_Canvas element context w h page).
Proof.
  split_and!.
  - discriminate.
  - constructor.
  - discriminate.
Qed.

Lemma proper_drawn_box e s :
  canDraw s = true ->
  finite (xstartPosition s) /\ finite (ystartPosition s) ->
  forall box, currentBox (drawRectangle e s) = Some box -> proper_box box.
Proof.
  intros Hdraw [[x Hx] [y Hy]] box. rewrite drawRectangle_eq by exact Hdraw.
  cbn. intros [= <-]. rewrite Hx, Hy. unfold xCorrection, yCorrection.
  destruct (drag_color_some s) as [c Hc].
  split_and!; cbn; unfold number_sub, finite; eauto.
Qed.

Lemma proper_handle s ev : proper_state s -> proper_state (handle s ev).
Proof.
  intros Hs. pose proof Hs as (Hanchor & Hboxes & Hslot).
  destruct ev; cbn [handle].
  - split_and!; [|exact Hboxes|exact Hslot].
    intros _. unfold onMouseDown, xCorrection, yCorrection, number_sub, finite.
    cbn. eauto.
  - unfold onDraw. destruct (canDraw s) eqn:Hdraw.
    + split_and!.
      * rewrite drawRectangle_eq by exact Hdraw. cbn. intros _. now apply Hanchor.
      * now rewrite boxes_drawRectangle.
      * apply proper_drawn_box; auto.
    + unfold drawRectangle. rewrite Hdraw. exact Hs.
  - split_and!.
    + destruct (onMouseUp_frame e s) as (page & lines & bs & cur & ->).
      discriminate.
    + unfold onMouseUp. cbn.
      match goal with |- Forall _ (boxes (saveCurrentBox ?s')) =>
        destruct (saveCurrentBox_cases s')
          as [[-> _]|(box & Hbox & -> & _)] end.
      * exact Hboxes.
      * apply Forall_app. split; [exact Hboxes|].
        constructor; [|constructor]. now apply Hslot.
    + unfold onMouseUp. cbn. intros box.
      match goal with |- currentBox (saveCurrentBox ?s') = _ -> _ =>
        destruct (saveCurrentBox_cases s')
          as [[_ ->]|(box' & _ & _ & ->)] end.
      * apply Hslot.
      * discriminate.
  - rewrite refresh_eq. exact Hs.
  - exact Hs.
  - split_and!; [exact Hanchor| |exact Hslot].
    unfold setPicture. cbn. apply Forall_app. split; [exact Hboxes|].
    now constructor.
  - exact Hs.
  - exact Hs.
  - exact Hs.
Qed.

Lemma proper_run (evs : list (Event W)) s :
  proper_state s -> proper_state (run evs s).
Proof.
  revert s. induction evs as [|ev evs IH]; intros s Hs; [exact Hs|].
  apply (IH (handle s ev)). now apply proper_handle.
Qed.

(** X3.  On a canvas that starts fresh, whatever events and calls it gets,
    every rectangle of the committed list has finite position and extents
    (a [Num], never an infinity or [NaN]) and a defined colour: the [Infinity] anchor set at pointer-up never
    reaches a rectangle, and none is committed without a colour. *)
Theorem committed_boxes_proper (element : HTMLCanvasElement)
    (context : CanvasRenderingContext2D) (w h : Z) (page : W)
    (evs : list (Event W)) (box : Box) :
  ItemBox box ∈ boxes (run evs (new_Canvas element context w h page)) ->
  exists x y bw bh c,
    box = mkBox (Num x) (Num y) (Num bw) (Num bh) (Some c).
Proof.
  intros Hin.
  destruct (proper_run evs _ (proper_new element context w h page))
    as (_ & Hboxes & _).
  rewrite Forall_forall in Hboxes. specialize (Hboxes _ Hin).
  destruct box as [px py bw bh c].
  unfold proper_item, proper_box, finite, is_Some in Hboxes. cbn in Hboxes.
  destruct Hboxes as ([x ->] & [y ->] & [w' ->] & [h' ->] & [c' ->]); cbn.
  now exists x, y, w', h', c'.
Qed.

Lemma pen_coherent_run (evs : list (Event W)) s :
  pen_coherent s -> pen_coherent (run evs s).
Proof.
  revert s. induction evs as [|ev evs IH]; intros s Hs; [exact Hs|].
  apply (IH (handle s ev)). now apply pen_coherent_handle.
Qed.

(** X4.  On a canvas that starts fresh, in every state it reaches, a
    current colour that is set is also the stroke colour of the pen. *)
Theorem pen_follows_current_colour (element : HTMLCanvasElement)
    (context : CanvasRenderingContext2D) (w h : Z) (page : W)
    (evs : list (Event W)) (c : string) :
  let s := run evs (new_Canvas element context w h page) in
  currentColor s = Some c -> strokeStyle (ctx s) = Some c.
Proof.
  intros s. apply (pen_coherent_run evs). apply pen_coherent_new.
Qed.

(** X5.  [refresh] paints a [clearRect] of the whole element and then one
    call per committed item, in list order: a rectangle is stroked at its
    stored geometry with its stored colour and the current line cap and
    width, a picture is drawn from the corner at the size of the element. *)
Theorem refresh_paints_in_list_order s :
  output refresh s =
    ClearRect (Num 0) (Num 0)
      (Num (elem_width (canvas s))) (Num (elem_height (canvas s)))
    :: map (render_item s) (boxes s) /\
  length (output refresh s) = S (length (boxes s)).
Proof.
  rewrite output_refresh. split; [reflexivity|].
  cbn. now rewrite length_map.
Qed.

(** X6.  While drawing is enabled, with the pen in step with the current
    colour, a pointer move paints what [refresh] paints and then, on top,
    one stroke of the provisional rectangle from the anchor, in the colour
    of the drag. *)
Theorem move_paints_all_then_provisional e s :
  canDraw s = true ->
  pen_coherent s ->
  output (onDraw e) s =
  output refresh s ++
  [StrokeRect (xstartPosition s) (ystartPosition s)
     (Num (clientX e) - xstartPosition s - xCorrection s)%num
     (Num (clientY e) - ystartPosition s - yCorrection s)%num
     (mkCtx (drag_color s) (lineCap (ctx s)) (lineWidth (ctx s)))].
Proof.
  intros Hdraw Hpen. unfold output, onDraw.
  rewrite drawRectangle_eq by exact Hdraw. cbn.
  rewrite drop_app_length. f_equal. f_equal. f_equal.
  unfold drag_color, pen_after.
  destruct (currentColor s) as [c|] eqn:Hc; [|reflexivity].
  destruct (existsb isBox (boxes s)); [reflexivity|].
  specialize (Hpen c Hc). destruct (ctx s); cbn in *. now subst.
Qed.

End Invariants.

Section Drags.
Context {W : Type}.
Implicit Types (s : Canvas W) (e : MouseEvent) (ev : Event W).

Lemma drag_state s d (ms : list MouseEvent) l :
  let s' := run (MouseDown d :: map MouseMove ms ++ [MouseMove l]) s in
  currentBox s' = Some (dragged_box s d l) /\
  boxes s' = boxes s /\ host s' = host s /\ console s' = console s /\
  saveCallbacks s' = saveCallbacks s /\ canvas s' = canvas s /\
  colorGenerator s' = drag_generator s /\ currentColor s' = drag_color s /\
  canDraw s' = true.
Proof.
  unfold run. cbv zeta. cbn [foldl handle].
  rewrite foldl_app. cbn [foldl handle]. unfold onDraw.
  assert (Hdown : canDraw (onMouseDown d s) = true) by reflexivity.
  pose proof (run_moves ms _ Hdown) as Hmoves.
  unfold run in Hmoves. cbv zeta in Hmoves.
  destruct Hmoves as (H1 & H2 & H3 & H4 & H5 & H6 & H7 & H8 & H9 & H10 & _).
  set (s2 := foldl handle (onMouseDown d s) (map MouseMove ms)) in *.
  destruct (drawRectangle_drag l s2 H5) as (Hc & Hg & _ & _).
  rewrite Hc, Hg, H9, H10. rewrite drawRectangle_eq by exact H5. cbn.
  rewrite H1, H2, H3, H4, H6, H7, H8, H9.
  split_and!; try reflexivity.
  unfold dragged_box, xCorrection, yCorrection. cbn. rewrite ?H1. cbn.
  change (drag_color (onMouseDown d s)) with (drag_color s).
  unfold number_sub. f_equal. f_equal; f_equal; cbn; lia.
Qed.

Lemma run_drag s (g : Drag) :
  run (drag_events g) s =
  onMouseUp (drag_up g)
    (run (MouseDown (drag_down g) :: map MouseMove (drag_moves g) ++
          [MouseMove (drag_last g)]) s).
Proof.
  unfold run, drag_events. cbn [foldl].
  rewrite !foldl_app. reflexivity.
Qed.

Lemma onMouseUp_accept e s (page : W) :
  all_accept (saveCallbacks s) (currentBox s) (host s) = Some page ->
  onMouseUp e s =
  mkCanvas (canvas s) (ctx s)
    (boxes s ++ match currentBox s with Some box => [ItemBox box] | None => [] end)
    None Infinity Infinity false None
    (colorGenerator s) (saveCallbacks s) (painted s) (console s) page.
Proof.
  intros Hall. unfold onMouseUp.
  match goal with |- context [saveCurrentBox ?t] =>
    rewrite (saveCurrentBox_accept t page Hall) end.
  destruct s as [el pen bs [box|] xs ys draw c g cbs pts con pg]; cbn;
    rewrite ?app_nil_r; reflexivity.
Qed.

Lemma drag_accepted s (g : Drag) (page : W) :
  all_accept (saveCallbacks s)
    (Some (dragged_box s (drag_down g) (drag_last g))) (host s) = Some page ->
  boxes (run (drag_events g) s) =
    boxes s ++ [ItemBox (dragged_box s (drag_down g) (drag_last g))] /\
  currentBox (run (drag_events g) s) = None /\
  currentColor (run (drag_events g) s) = None /\
  host (run (drag_events g) s) = page /\
  console (run (drag_events g) s) = console s.
Proof.
  intros Hall. rewrite run_drag.
  destruct (drag_state s (drag_down g) (drag_moves g) (drag_last g))
    as (Hbox & Hboxes & Hhost & Hcon & Hcbs & _).
  rewrite (onMouseUp_accept _ _ page) by now rewrite Hcbs, Hbox, Hhost.
  cbn [boxes currentBox currentColor host console].
  rewrite Hbox, Hboxes, Hcon. split_and!; reflexivity.
Qed.

(** X7.  When every listener accepts the rectangle of a drag, the drag
    appends exactly that rectangle: anchored at the surface position of the
    pointer-down, extending to the last move, in the colour of the drag.
    The provisional slot and the current colour are empty afterwards,
    nothing is logged, and the page is the one the listeners left. *)
Theorem accepted_drag_commits s (g : Drag) (page : W) :
  let box := dragged_box s (drag_down g) (drag_last g) in
  all_accept (saveCallbacks s) (Some box) (host s) = Some page ->
  let s' := run (drag_events g) s in
  boxes s' = boxes s ++ [ItemBox box] /\
  currentBox s' = None /\ currentColor s' = None /\
  host s' = page /\ console s' = console s.
Proof. intros box Hall s'. now apply drag_accepted. Qed.

Lemma first_listener_kept (f : Listener W) s ev :
  (exists rest, saveCallbacks s = f :: rest) ->
  exists rest, saveCallbacks (handle s ev) = f :: rest.
Proof.
  intros [rest Hrest]. rewrite saveCallbacks_handle, Hrest. eauto.
Qed.

Lemma veto_first_handle (f : Listener W) s ev :
  (forall box page, snd (f box page) = Return false) ->
  (exists rest, saveCallbacks s = f :: rest) ->
  filter (fun item => isBox item = true) (boxes (handle s ev)) =
  filter (fun item => isBox item = true) (boxes s).
Proof.
  intros Hveto [rest Hrest]. destruct ev; cbn [handle]; try reflexivity.
  - unfold onDraw. now rewrite boxes_drawRectangle.
  - destruct (f (currentBox s) (host s)) as [page out] eqn:Hf.
    assert (Hout : out = Return false).
    { specialize (Hveto (currentBox s) (host s)). now rewrite Hf in Hveto. }
    subst out.
    destruct (onMouseUp_rejected e s [] rest f (host s) page Hrest eq_refl
                (or_introl Hf)) as (-> & _).
    reflexivity.
  - now rewrite refresh_eq.
  - unfold setPicture. cbn. rewrite filter_app. cbn.
    now rewrite app_nil_r.
Qed.

(** X8.  While the first registered listener vetoes everything, no run of
    events and calls ever commits a rectangle: the rectangles of the
    committed list stay exactly those it had. *)
Theorem standing_veto_commits_nothing (f : Listener W)
    (evs : list (Event W)) s :
  (forall box page, snd (f box page) = Return false) ->
  (exists rest, saveCallbacks s = f :: rest) ->
  filter (fun item => isBox item = true) (boxes (run evs s)) =
  filter (fun item => isBox item = true) (boxes s).
Proof.
  intros Hveto. revert s. induction evs as [|ev evs IH]; intros s Hfirst.
  - reflexivity.
  - change (run (ev :: evs) s) with (run evs (handle s ev)).
    rewrite IH by now apply (first_listener_kept f).
    now apply (veto_first_handle f).
Qed.

(** X9.  A colour set by [setColor] before a drag is the colour of that
    drag's rectangle and costs the generator nothing; pointer-up forgets
    it, and the drag after takes the generator's next colour. *)
Theorem host_colour_lasts_one_drag s (c : string) (g1 g2 : Drag) :
  saveCallbacks s = [] ->
  let s1 := run (CallSetColor c :: drag_events g1) s in
  let s2 := run (drag_events g2) s1 in
  boxes s1 =
    boxes s ++
    [ItemBox (mkBox (posX (dragged_box s (drag_down g1) (drag_last g1)))
                (posY (dragged_box s (drag_down g1) (drag_last g1)))
                (width (dragged_box s (drag_down g1) (drag_last g1)))
                (height (dragged_box s (drag_down g1) (drag_last g1)))
                (Some c))] /\
  colorGenerator s1 = colorGenerator s /\
  currentColor s1 = None /\
  (exists box,
     boxes s2 = boxes s1 ++ [ItemBox box] /\
     color box = fst (generator_next (colorGenerator s))) /\
  colorGenerator s2 = snd (generator_next (colorGenerator s)).
Proof.
  intros Hnone s1 s2.
  set (t := setColor (Some c) s).
  assert (Hnone_t : saveCallbacks t = []) by exact Hnone.
  destruct (drag_eq t (drag_down g1) (drag_moves g1) (drag_last g1)
              (drag_up g1) Hnone_t)
    as (Hb1 & _ & Hc1 & Hg1 & Hn1 & _).
  change (run _ t) with s1 in Hb1, Hc1, Hg1, Hn1.
  destruct (drag_eq s1 (drag_down g2) (drag_moves g2) (drag_last g2)
              (drag_up g2) Hn1)
    as (Hb2 & _ & _ & Hg2 & _).
  change (run _ s1) with s2 in Hb2, Hg2.
  change (colorGenerator s1 = colorGenerator s) in Hg1.
  clearbody s2. clearbody s1. split_and!.
  - exact Hb1.
  - exact Hg1.
  - exact Hc1.
  - eexists. split; [exact Hb2|].
    unfold dragged_box, drag_color. cbn. now rewrite Hc1, Hg1.
  - rewrite Hg2. unfold drag_generator. now rewrite Hc1, Hg1.
Qed.

(** X10.  The rectangle is measured on the surface: when the page layout
    moves the element between the pointer-down and a move, the anchor keeps
    the offset read at pointer-down and the extent is the difference of the
    two surface positions, each taken with the offset of its own event. *)
Theorem layout_change_mid_drag s d (rect : DOMRect) l :
  let left := rect_left (boundingClientRect (canvas s)) in
  let top := rect_top (boundingClientRect (canvas s)) in
  currentBox (run [MouseDown d; Layout rect; MouseMove l] s) =
  Some (mkBox (Num (clientX d - left)) (Num (clientY d - top))
          (Num ((clientX l - rect_left rect) - (clientX d - left)))
          (Num ((clientY l - rect_top rect) - (clientY d - top)))
          (drag_color s)).
Proof.
  unfold run. cbn [foldl handle]. unfold onDraw.
  rewrite drawRectangle_eq by reflexivity. cbn.
  unfold xCorrection, yCorrection, number_sub. cbn.
  change (drag_color _) with (drag_color s).
  f_equal. f_equal; f_equal; lia.
Qed.

(** X16.  A second pointer-down with no pointer-up in between (the button
    was released off the canvas) moves the anchor and nothing else: the
    provisional rectangle of the next move starts at the new anchor, keeps
    the colour taken at the first move, and the generator is not called
    again. *)
Theorem second_pointer_down_reanchors s d1 m d2 l :
  let s1 := run [MouseDown d1; MouseMove m] s in
  let s2 := run [MouseDown d2; MouseMove l] s1 in
  currentBox s2 =
    Some (mkBox (posX (dragged_box s d2 l)) (posY (dragged_box s d2 l))
            (width (dragged_box s d2 l)) (height (dragged_box s d2 l))
            (color (dragged_box s d1 m))) /\
  colorGenerator s2 = colorGenerator s1 /\
  boxes s2 = boxes s.
Proof.
  intros s1 s2.
  destruct (drag_state s d1 [] m)
    as (_ & Hb1 & _ & _ & _ & Hcanvas1 & Hg1 & Hc1 & _).
  change (run _ s) with s1 in Hb1, Hcanvas1, Hg1, Hc1.
  destruct (drag_state s1 d2 [] l) as (Hbox2 & Hb2 & _ & _ & _ & _ & Hg2 & _).
  change (run _ s1) with s2 in Hbox2, Hb2, Hg2.
  destruct (drag_color_some s) as [c Hc].
  assert (Hcolor : drag_color s1 = drag_color s).
  { unfold drag_color at 1. now rewrite Hc1, Hc. }
  clearbody s2. clearbody s1. split_and!.
  - rewrite Hbox2. unfold dragged_box. rewrite Hcanvas1, Hcolor. reflexivity.
  - rewrite Hg2. unfold drag_generator. now rewrite Hc1, Hc.
  - now rewrite Hb2.
Qed.

End Drags.

Section ManyDrags.
Context {W : Type}.
Implicit Types (s : Canvas W).

Lemma nth_drag_box_first s (g : Drag) :
  currentColor s = None ->
  ItemBox (dragged_box s (drag_down g) (drag_last g)) = nth_drag_box s 0 g.
Proof.
  intros Hnone. unfold nth_drag_box, dragged_box, drag_color.
  rewrite Hnone. unfold generator_next. cbn [fst].
  now rewrite Nat.add_1_r.
Qed.

Lemma drags_eq (ds : list Drag) s :
  saveCallbacks s = [] ->
  currentColor s = None ->
  boxes (run (concat (map drag_events ds)) s) =
    boxes s ++ imap (nth_drag_box s) ds /\
  currentNumber (colorGenerator (run (concat (map drag_events ds)) s)) =
    currentNumber (colorGenerator s) + length ds /\
  currentColor (run (concat (map drag_events ds)) s) = None.
Proof.
  revert s. induction ds as [|g ds IH]; intros s Hlisteners Hnone.
  - cbn. rewrite app_nil_r, Nat.add_0_r. now split_and!.
  - cbn [map concat]. unfold run at 1 2 3. rewrite foldl_app.
    fold (run (drag_events g (W:=W)) s).
    set (s1 := run (drag_events g) s).
    fold (run (concat (map drag_events ds)) s1).
    destruct (drag_eq s (drag_down g) (drag_moves g) (drag_last g)
                (drag_up g) Hlisteners)
      as (Hb1 & _ & Hc1 & Hg1 & Hn1 & Hcanvas1).
    change (run _ s) with s1 in Hb1, Hc1, Hg1, Hn1, Hcanvas1.
    destruct (IH s1 Hn1 Hc1) as (Hb & Hg & Hc).
    assert (Hcount : currentNumber (colorGenerator s1) =
                     S (currentNumber (colorGenerator s))).
    { rewrite Hg1. unfold drag_generator. now rewrite Hnone. }
    rewrite Hb, Hg, Hc, Hb1, Hcount, <- app_assoc. cbn [app length].
    split_and!; [|lia|reflexivity].
    f_equal. cbn [imap]. rewrite nth_drag_box_first by exact Hnone. f_equal.
    apply imap_ext. intros i g' _. unfold nth_drag_box, compose.
    rewrite Hcanvas1, Hcount.
    replace (S (currentNumber (colorGenerator s)) + S i)
      with (currentNumber (colorGenerator s) + S (S i)) by lia.
    reflexivity.
Qed.

(** X11.  With no listener and no colour set by the host, a sequence of
    drags appends one rectangle per drag, in order, and the [i]-th of them
    (from 0) has the colour the generator gives at its call [i + 1] from
    where it stood: the palette is gone through in turn, one colour per
    drag, however many moves a drag has. *)
Theorem drags_take_colours_in_turn (ds : list Drag) s :
  saveCallbacks s = [] ->
  currentColor s = None ->
  let s' := run (concat (map drag_events ds)) s in
  boxes s' = boxes s ++ imap (nth_drag_box s) ds /\
  currentNumber (colorGenerator s') =
    currentNumber (colorGenerator s) + length ds /\
  currentColor s' = None.
Proof. intros Hlisteners Hnone s'. now apply drags_eq. Qed.

Lemma onMouseUp_v1 e s :
  saveCallbacks s = [] -> onMouseUp e s = V1.onMouseUp e s.
Proof.
  intros Hnone.
  destruct s as [el pen bs cur xs ys draw c g cbs pts con page].
  cbn in Hnone. subst cbs. unfold onMouseUp, V1.onMouseUp, saveCurrentBox.
  cbn. destruct cur; reflexivity.
Qed.

Lemma handle_v1 (ev : V1.Event) s :
  saveCallbacks s = [] ->
  handle s (V1.lift ev) = V1.handle s ev /\
  saveCallbacks (V1.handle s ev) = [].
Proof.
  intros Hnone.
  assert (Hsame : handle s (V1.lift ev) = V1.handle s ev).
  { destruct ev; try reflexivity. cbn. now apply onMouseUp_v1. }
  split; [exact Hsame|].
  rewrite <- Hsame, saveCallbacks_handle, Hnone. now destruct ev.
Qed.

(** X12.  As long as no listener is registered, the class of the second
    listing does on every sequence of events and calls exactly what the
    class of the first listing did: [saveCurrentBox] with an empty listener
    list is the old push-and-clear of [onMouseUp]. *)
Theorem no_listener_same_as_first_listing (evs : list V1.Event) s :
  saveCallbacks s = [] ->
  run (map V1.lift evs) s = V1.run evs s.
Proof.
  revert s. induction evs as [|ev evs IH]; intros s Hnone; [reflexivity|].
  destruct (handle_v1 ev s Hnone) as [Hsame Hnone'].
  unfold run, V1.run in *. cbn [map foldl]. rewrite Hsame.
  now apply IH.
Qed.

End ManyDrags.

(** * The overlay listener of [Main] *)

Lemma mainListener_accepts (box : Box) (container : list Overlay) :
  snd (mainListener (Some box) container) = Return true /\
  length (fst (mainListener (Some box) container)) = S (length container).
Proof.
  cbn. unfold addOverlay. rewrite length_app. cbn. split; [reflexivity|lia].
Qed.

(** X13.  On a rectangle with integer geometry the listener of [Main]
    accepts and appends one overlay of 100 by 100 in the colour of the
    rectangle, placed so that its centre is the midpoint of the rectangle,
    rounded up to a whole pixel, also when an extent is negative. *)
Theorem overlay_centred_on_box (x y w h : Z) (c : option string)
    (container : list Overlay) :
  exists top left : Z,
    mainListener (Some (mkBox (Num x) (Num y) (Num w) (Num h) c)) container =
      (container ++
       [mkOverlay "overlay" "absolute" (Num top) (Num left) "100px" "100px" c],
       Return true) /\
    (w <= 2 * (left + 50 - x) <= w + 1)%Z /\
    (h <= 2 * (top + 50 - y) <= h + 1)%Z.
Proof.
  exists (y + (h + 1) / 2 - 50)%Z, (x + (w + 1) / 2 - 50)%Z.
  split; [reflexivity|].
  pose proof (Z.div_mod (w + 1) 2 ltac:(lia)) as Hw.
  pose proof (Z.mod_pos_bound (w + 1) 2 ltac:(lia)) as Hw'.
  pose proof (Z.div_mod (h + 1) 2 ltac:(lia)) as Hh.
  pose proof (Z.mod_pos_bound (h + 1) 2 ltac:(lia)) as Hh'.
  lia.
Qed.

(** X14.  On a page whose only listener is the one of [Main], every drag
    commits its rectangle and adds exactly one overlay, the one the
    listener makes for that rectangle; nothing is logged. *)
Theorem drag_on_main_page_adds_overlay (s : Canvas (list Overlay)) (g : Drag) :
  saveCallbacks s = [mainListener] ->
  let box := dragged_box s (drag_down g) (drag_last g) in
  let s' := run (drag_events g) s in
  boxes s' = boxes s ++ [ItemBox box] /\
  host s' = fst (mainListener (Some box) (host s)) /\
  length (host s') = S (length (host s)) /\
  currentBox s' = None /\
  console s' = console s.
Proof.
  intros Hmain box s'.
  destruct (drag_accepted s g (fst (mainListener (Some box) (host s))))
    as (Hb & Hcur & _ & Hhost & Hcon).
  { rewrite Hmain. reflexivity. }
  fold s' in Hb, Hcur, Hhost, Hcon. fold box in Hb.
  rewrite Hb, Hcur, Hhost, Hcon.
  split_and!; try reflexivity. apply mainListener_accepts.
Qed.

(** * The first sketch *)

Lemma sketch_moves (ms : list MouseEvent) (t : V0.Canvas) (ax ay : Z) :
  V0.canDraw t = true ->
  V0.xstartPosition t = Num ax ->
  V0.ystartPosition t = Num ay ->
  foldl (fun s m => V0.onDraw m s) t ms =
  V0.set_painted (V0.painted t ++ concat (map (sketch_move t ax ay) ms)) t.
Proof.
  revert t. induction ms as [|m ms IH]; intros t Hdraw Hx Hy.
  - cbn. rewrite app_nil_r. destruct t; reflexivity.
  - cbn [foldl map concat]. unfold V0.onDraw at 2, V0.drawRectangle.
    rewrite Hdraw. cbn [negb].
    match goal with |- foldl _ ?t' _ = _ => set (t1 := t') end.
    rewrite (IH t1) by (subst t1; cbn; assumption).
    subst t1. destruct t as [el pen xs ys draw pts con].
    cbn in Hdraw, Hx, Hy. subst draw xs ys.
    unfold sketch_move, V0.refresh, V0.xCorrection, V0.yCorrection, number_sub.
    cbn. rewrite <- !app_assoc. reflexivity.
Qed.

(** X15.  In the first sketch nothing is kept between moves: after a
    pointer-down every move clears the whole element and strokes the one
    rectangle from the anchor to the pointer with the pen as it is, and the
    state is otherwise the one the pointer-down left; [setup] makes that pen
    red, butt-capped, 5 wide; after a pointer-up a move does nothing. *)
Theorem sketch_strokes_each_move (s : V0.Canvas) (d u : MouseEvent)
    (ms : list MouseEvent) :
  let left := rect_left (boundingClientRect (V0.canvas s)) in
  let top := rect_top (boundingClientRect (V0.canvas s)) in
  let t := V0.onMouseDown d s in
  foldl (fun s m => V0.onDraw m s) t ms =
    V0.set_painted
      (V0.painted s ++
       concat (map (sketch_move s (clientX d - left) (clientY d - top)) ms)) t /\
  V0.ctx (V0.setup s) = mkCtx (Some "red") "butt" 5 /\
  foldl (fun s m => V0.onDraw m s) (V0.onMouseUp u s) ms = V0.onMouseUp u s.
Proof.
  intros left top t. split_and!.
  - rewrite (sketch_moves ms t (clientX d - left) (clientY d - top));
      reflexivity.
  - reflexivity.
  - induction ms as [|m ms IH]; [reflexivity|exact IH].
Qed.

(** * Runs of the further properties on the sample pages *)

Lemma committed_boxes_proper_witness :
  let box := mkBox (Num 10) (Num 10) (Num 40) (Num 30) (Some "red") in
  ItemBox box ∈ boxes (run (drag_events sample_drag) blank) /\
  exists x y bw bh c, box = mkBox (Num x) (Num y) (Num bw) (Num bh) (Some c).
Proof.
  intros box.
  assert (Hin : ItemBox box ∈ boxes (run (drag_events sample_drag) blank))
    by (vm_compute; constructor).
  split; [exact Hin|].
  exact (committed_boxes_proper page_element page_context 1015 759 tt
           (drag_events sample_drag) box Hin).
Defined.

Lemma pen_follows_current_colour_witness :
  let s := run [MouseDown (mkMouse 18 18); MouseMove (mkMouse 58 48)] blank in
  currentColor s = Some "red" /\ strokeStyle (ctx s) = Some "red".
Proof.
  intros s. split; [reflexivity|].
  exact (pen_follows_current_colour page_element page_context 1015 759 tt
           [MouseDown (mkMouse 18 18); MouseMove (mkMouse 58 48)] "red"
           eq_refl).
Defined.

Lemma move_paints_all_then_provisional_witness :
  let s := run [MouseDown (mkMouse 18 18)] blank in
  canDraw s = true /\
  output (onDraw (mkMouse 58 48)) s =
  output refresh s ++
  [StrokeRect (Num 10) (Num 10) (Num 40) (Num 30)
     (mkCtx (Some "red") "butt" 1)].
Proof.
  intros s. split; [reflexivity|].
  apply (move_paints_all_then_provisional (mkMouse 58 48) s).
  - reflexivity.
  - intros c Hc. vm_compute in Hc. discriminate Hc.
Defined.

Lemma accepted_drag_commits_witness :
  let s := Main page_element page_context 1024 768 in
  let box := dragged_box s (drag_down sample_drag) (drag_last sample_drag) in
  let page := fst (mainListener (Some box) (host s)) in
  all_accept (saveCallbacks s) (Some box) (host s) = Some page /\
  boxes (run (drag_events sample_drag) s) = boxes s ++ [ItemBox box].
Proof.
  intros s box page. split; [reflexivity|].
  exact (proj1 (accepted_drag_commits s sample_drag page eq_refl)).
Defined.

Lemma standing_veto_commits_nothing_witness :
  let s := addSaveListener vetoAlways blank in
  let evs := drag_events sample_drag ++ drag_events sample_drag in
  (exists rest, saveCallbacks s = vetoAlways :: rest) /\
  filter (fun item => isBox item = true) (boxes (run evs s)) =
  filter (fun item => isBox item = true) (boxes s).
Proof.
  intros s evs.
  assert (Hfirst : exists rest, saveCallbacks s = vetoAlways :: rest)
    by (exists []; reflexivity).
  split; [exact Hfirst|].
  apply (standing_veto_commits_nothing vetoAlways evs s).
  - intros box page. reflexivity.
  - exact Hfirst.
Defined.

Lemma host_colour_lasts_one_drag_witness :
  let s1 := run (CallSetColor "pink" :: drag_events sample_drag) blank in
  saveCallbacks blank = [] /\
  colorGenerator s1 = colorGenerator blank.
Proof.
  intros s1. split; [reflexivity|].
  exact (proj1 (proj2
    (host_colour_lasts_one_drag blank "pink" sample_drag sample_drag eq_refl))).
Defined.

Lemma drags_take_colours_in_turn_witness :
  let ds := [sample_drag; sample_drag] in
  saveCallbacks blank = [] /\ currentColor blank = None /\
  boxes (run (concat (map drag_events ds)) blank) =
  boxes blank ++ imap (nth_drag_box blank) ds.
Proof.
  intros ds. split_and!; [reflexivity|reflexivity|].
  exact (proj1 (drags_take_colours_in_turn ds blank eq_refl eq_refl)).
Defined.

Lemma no_listener_same_as_first_listing_witness :
  let evs :=
    [V1.Down (mkMouse 18 18); V1.Move (mkMouse 58 48); V1.Up (mkMouse 58 48)] in
  saveCallbacks blank = [] /\
  run (map V1.lift evs) blank = V1.run evs blank.
Proof.
  intros evs. split; [reflexivity|].
  exact (no_listener_same_as_first_listing evs blank eq_refl).
Defined.

Lemma drag_on_main_page_adds_overlay_witness :
  let s := Main page_element page_context 1024 768 in
  saveCallbacks s = [mainListener] /\
  length (host (run (drag_events sample_drag) s)) = S (length (host s)).
Proof.
  intros s. split; [reflexivity|].
  exact (proj1 (proj2 (proj2
    (drag_on_main_page_adds_overlay s sample_drag eq_refl)))).
Defined.
